(** * Customer file dashboard: a shallow embedding of [app.py]

    The FastAPI handlers of [app.py] are embedded as functions over an
    explicit [world] (the rows of the [uploaded_files] table, the backup
    folder on disk and the log), in a small state-and-exception monad that
    follows Python's [try] / [except] / [raise].

    Conventions.
    - A Python [str] is a list of Unicode code points ([str := list N]);
      [py "abc"] turns an ASCII literal into such a list.
    - Library functions whose tables are not part of the repository are
      parameters of the development: [str.isalnum], [str.isspace] and
      [str.lower] (Unicode data), [dateutil.parser.parse] and the database's
      [ILIKE] operator.  [os.path.splitext] and [os.path.join] are the POSIX
      versions.
    - A [Numeric(_, 2)] column holds an integer number of hundredths; a
      [float] query parameter is a rational. *)

From Stdlib Require Import ZArith NArith QArith Lia.
From stdpp Require Import gmap strings list.

Local Open Scope Z_scope.

(** ** Python strings *)

Definition char := N.
Definition str := list char.

Definition py (s : string) : str :=
  map Ascii.N_of_ascii (String.list_ascii_of_string s).

(** Truth value of a [str]: the empty string is falsy. *)
Definition str_truthy (s : str) : bool :=
  match s with [] => false | _ :: _ => true end.

(** Truth value of an optional [str] ([None] and the empty string are falsy). *)
Definition opt_truthy (o : option str) : bool :=
  match o with None => false | Some s => str_truthy s end.

Definition str_eqb (a b : str) : bool := bool_decide (a = b).

Definition c_dot : char := 46%N.
Definition c_underscore : char := 95%N.
Definition c_dash : char := 45%N.
Definition c_slash : char := 47%N.

(** ** Exceptions and responses *)

Inductive exn :=
| HTTPException (status_code : Z) (detail : detail)
| ValueError
| AttributeError (msg : string)
| OverflowError
| OSError
| SQLAlchemyError
with detail :=
| Lit (s : string)
| Fmt (prefix : string) (e : exn).   (* f"prefix{e}" *)

(** [except ValueError] catches [ValueError] only; [except Exception]
    catches every constructor of [exn], [HTTPException] included (it derives
    from [Exception]). *)
Definition is_ValueError (e : exn) : bool :=
  match e with ValueError => true | _ => false end.

Definition is_Exception (e : exn) : bool := true.

(** ** Dates *)

Record date := Date { year : Z; month : Z; day : Z }.
Record datetime := DateTime { dt_date : date; hour : Z; minute : Z; second : Z }.

Definition is_leap (y : Z) : bool :=
  (y mod 4 =? 0) && (negb (y mod 100 =? 0) || (y mod 400 =? 0)).

Definition days_in_month (y m : Z) : Z :=
  if m =? 2 then (if is_leap y then 29 else 28)
  else if (m =? 4) || (m =? 6) || (m =? 9) || (m =? 11) then 30
  else 31.

(** [d + timedelta(days=1)] on a [datetime.date]; [None] past [date.max],
    which is 9999-12-31. *)
Definition date_add_one_day (d : date) : option date :=
  if day d <? days_in_month (year d) (month d)
  then Some (Date (year d) (month d) (day d + 1))
  else if month d <? 12
  then Some (Date (year d) (month d + 1) 1)
  else if year d <? 9999
  then Some (Date (year d + 1) 1 1)
  else None.

Definition date_compare (a b : date) : comparison :=
  match year a ?= year b with
  | Eq => match month a ?= month b with
          | Eq => day a ?= day b
          | c => c
          end
  | c => c
  end.

Definition time_of_day (t : datetime) : Z :=
  (hour t * 60 + minute t) * 60 + second t.

Definition datetime_compare (a b : datetime) : comparison :=
  match date_compare (dt_date a) (dt_date b) with
  | Eq => time_of_day a ?= time_of_day b
  | c => c
  end.

(** A [date] bound against a [DateTime] column is midnight of that day. *)
Definition midnight (d : date) : datetime := DateTime d 0 0 0.

Definition datetime_geb (a b : datetime) : bool :=
  match datetime_compare a b with Lt => false | _ => true end.

Definition datetime_ltb (a b : datetime) : bool :=
  match datetime_compare a b with Lt => true | _ => false end.

(** Values that reach an attribute access: [x.date()] exists on
    [datetime.datetime] and not on [datetime.date]. *)
Inductive pyobj :=
| PyDate (d : date)
| PyDateTime (t : datetime).

Definition call_date (o : pyobj) : exn + date :=
  match o with
  | PyDateTime t => inr (dt_date t)
  | PyDate _ => inl (AttributeError "'datetime.date' object has no attribute 'date'")
  end.

(** [strftime] fields are zero-padded decimal numbers of fixed width. *)
Fixpoint pad_digits (w : nat) (n : Z) : str :=
  match w with
  | O => []
  | S w' => pad_digits w' (n / 10) ++ [Z.to_N (48 + n mod 10)]
  end.

(** [t.strftime('%Y%m%d%H%M%S')] *)
Definition strftime_compact (t : datetime) : str :=
  pad_digits 4 (year (dt_date t)) ++ pad_digits 2 (month (dt_date t)) ++
  pad_digits 2 (day (dt_date t)) ++ pad_digits 2 (hour t) ++
  pad_digits 2 (minute t) ++ pad_digits 2 (second t).

(** ** The table [uploaded_files] *)

Record UploadedFile := mkUploadedFile {
  id : Z;
  filename : str;
  owner : str;
  work_detail : option str;
  uploaded_at : datetime;
  client_ip : option str;
  ocr_text : option str;
  receipt_date : option datetime;
  total_amount : option Z;
  similarity_status : option str;
  similar_to_file_id : option Z;
  similarity_score : option Z
}.

(** ** Log records *)

Inductive level := INFO | WARNING | ERROR.

Inductive logmsg :=
| MsgReceivedUpload (fname : option str) (own : str) (wd : option str)
| MsgSaving (path : str)
| MsgUploaded (fname : str) (fid : Z)
| MsgDbSaveFailed (e : exn)
| MsgUploadError (e : exn)
| MsgFetchFailed (e : exn)
| MsgUpdated (fid : Z)
| MsgUpdateFailed (fid : Z) (e : exn)
| MsgDiskDeleted (fname : str)
| MsgDiskMissing (fname : str) (fid : Z) (path : str)
| MsgDbDeleted (fid : Z)
| MsgDeleteFailed (fid : Z) (e : exn)
| MsgExportFailed (e : exn).

(** ** The world a request runs in *)

Record world := World {
  db : list UploadedFile;          (* committed rows, in storage order *)
  next_id : Z;                     (* next value of the primary key *)
  disk : gmap str (list N);        (* path -> bytes *)
  log : list (level * logmsg)
}.

(** What the environment does during one request: the clock, and which of
    the fallible system calls fail. *)
Inductive write_outcome :=
| WriteOk
| OpenFails
| CopyFails (written : list N).

Record env := Env {
  now : datetime;                  (* datetime.now() *)
  makedirs_fails : bool;           (* os.makedirs raises OSError *)
  blob_write : write_outcome;      (* open(..., "wb") / shutil.copyfileobj *)
  remove_fails : bool;             (* os.remove raises OSError *)
  execute_fails : bool;            (* db.execute raises *)
  commit_fails : bool              (* db.commit raises *)
}.

(** ** State and exception monad *)

Definition M (A : Type) : Type := world -> (exn + A) * world.

Definition ret {A} (a : A) : M A := fun w => (inr a, w).

Definition raise {A} (e : exn) : M A := fun w => (inl e, w).

Definition bind {A B} (m : M A) (k : A -> M B) : M B :=
  fun w => match m w with
           | (inl e, w') => (inl e, w')
           | (inr a, w') => k a w'
           end.

Notation "x <- m ;; k" := (bind m (fun x => k))
  (at level 100, m at next level, right associativity).
Notation "m ;;; k" := (bind m (fun _ => k))
  (at level 100, right associativity).

(** [try: body except C as e: handler e], where [catches] decides
    [isinstance(e, C)]. *)
Definition try_except {A} (body : M A) (catches : exn -> bool)
    (handler : exn -> M A) : M A :=
  fun w => match body w with
           | (inl e, w') => if catches e then handler e w' else (inl e, w')
           | r => r
           end.

(** A pure computation that may raise. *)
Definition lift {A} (r : exn + A) : M A :=
  match r with inl e => raise e | inr a => ret a end.

Definition logger (l : level) (m : logmsg) : M unit :=
  fun w => (inr tt, World (db w) (next_id w) (disk w) (log w ++ [(l, m)])).

Definition get_world : M world := fun w => (inr w, w).

(** ** [os.path] (POSIX) *)

(** [s.rfind(c)], counting indices from [i]; [-1] when [c] does not occur. *)
Fixpoint rfind_from (c : char) (s : str) (i : Z) : Z :=
  match s with
  | [] => -1
  | x :: s' =>
      let r := rfind_from c s' (i + 1) in
      if 0 <=? r then r else if N.eqb x c then i else -1
  end.

Definition rfind (c : char) (s : str) : Z := rfind_from c s 0.

(** [p[a:b]] for [0 <= a]. *)
Definition slice (p : str) (a b : Z) : str :=
  take (Z.to_nat (b - a)) (drop (Z.to_nat a) p).

(** [os.path.splitext]: the extension starts at the last dot after the last
    separator, unless only dots precede it in the file name. *)
Definition splitext (p : str) : str * str :=
  let sepIndex := rfind c_slash p in
  let dotIndex := rfind c_dot p in
  if (sepIndex <? dotIndex) &&
     existsb (fun x => negb (N.eqb x c_dot)) (slice p (sepIndex + 1) dotIndex)
  then (take (Z.to_nat dotIndex) p, drop (Z.to_nat dotIndex) p)
  else (p, []).

Definition startswith_char (c : char) (s : str) : bool :=
  match s with x :: _ => N.eqb x c | [] => false end.

Definition endswith_char (c : char) (s : str) : bool :=
  match last s with Some x => N.eqb x c | None => false end.

(** [os.path.join(a, b)] *)
Definition os_path_join (a b : str) : str :=
  if startswith_char c_slash b then b
  else if negb (str_truthy a) || endswith_char c_slash a then a ++ b
  else a ++ [c_slash] ++ b.

(** ** Responses *)

Inductive cell :=
| CNone
| CInt (n : Z)
| CStr (s : str)
| CFloat (hundredths : Z)          (* float(Decimal) of a Numeric(_, 2) *)
| CIso (t : datetime).             (* t.isoformat() *)

Inductive content :=
| UploadOk (fid : Z)               (* {"message": "File uploaded successfully!", "id": fid} *)
| FilesData (rows : list (list (string * cell)))
| UpdateOk (fid : Z)               (* {"message": "File updated successfully!", "id": fid} *)
| DeleteOk                         (* {"message": "File deleted successfully!"} *)
| EmptyBody
| CsvBody (lines : list (list cell)) (csv_filename : str).

Record response := Resp { status : Z; body : content }.

(** ** Requests *)

Record upload_request := UploadRequest {
  up_filename : option str;        (* file.filename *)
  up_bytes : list N;               (* file.file *)
  up_owner : str;
  up_work_detail : option str;
  up_client : option str           (* request.client.host if request.client else None *)
}.

Record files_query := FilesQuery {
  q_owner : option str;
  q_filename : option str;
  q_receipt_date_start : option str;
  q_receipt_date_end : option str;
  q_total_amount_min : option Q;
  q_total_amount_max : option Q;
  q_similarity_status : option str
}.

Record update_form := UpdateForm {
  f_owner : str;
  f_work_detail : option str;
  f_ocr_text : option str;
  f_receipt_date : option str;
  f_total_amount : option Z;
  f_similarity_status : option str;
  f_similar_to_file_id : option Z;
  f_similarity_score : option Z
}.

(** ** World primitives *)

Definition set_db (rows : list UploadedFile) (nid : Z) (w : world) : world :=
  World rows nid (disk w) (log w).

Definition set_disk (d : gmap str (list N)) (w : world) : world :=
  World (db w) (next_id w) d (log w).

(** [os.makedirs(BACKUP_FOLDER, exist_ok=True)] *)
Definition os_makedirs (ev : env) : M unit :=
  if makedirs_fails ev then raise OSError else ret tt.

(** [with open(path, "wb") as buffer: shutil.copyfileobj(src, buffer)] *)
Definition write_blob (ev : env) (path : str) (bytes : list N) : M unit :=
  fun w =>
    match blob_write ev with
    | WriteOk => (inr tt, set_disk (<[path := bytes]> (disk w)) w)
    | OpenFails => (inl OSError, w)
    | CopyFails written => (inl OSError, set_disk (<[path := written]> (disk w)) w)
    end.

(** [os.path.exists(path)] *)
Definition os_path_exists (path : str) : M bool :=
  fun w => (inr (bool_decide (is_Some (disk w !! path))), w).

(** [os.remove(path)] *)
Definition os_remove (ev : env) (path : str) : M unit :=
  fun w =>
    if remove_fails ev then (inl OSError, w)
    else (inr tt, set_disk (delete path (disk w)) w).

(** [db.execute(select(UploadedFile)...)]: the session reads the committed
    rows. *)
Definition db_execute (ev : env) : M (list UploadedFile) :=
  fun w => if execute_fails ev then (inl SQLAlchemyError, w) else (inr (db w), w).

(** [db.commit()]: the rows the session holds become the committed ones. *)
Definition db_commit (ev : env) (rows : list UploadedFile) (nid : Z) : M unit :=
  fun w => if commit_fails ev then (inl SQLAlchemyError, w)
           else (inr tt, set_db rows nid w).

(** [db.rollback()]: what the session holds is dropped; the committed rows
    stay as they are. *)
Definition db_rollback : M unit := ret tt.

(** [db.refresh(obj)] follows the commit in [upload_file] and [update_file]
    and re-reads the committed row.  The environment has no fault for it:
    the handlers are given for requests whose refresh succeeds, and a
    statement about a request that fails names the step that stops it. *)

(** [.scalars().first()] *)
Definition first {A} (l : list A) : option A := head l.

(** [file.x = ...] on the row with primary key [fid] held by the session. *)
Fixpoint replace_row (fid : Z) (r : UploadedFile) (rows : list UploadedFile)
    : list UploadedFile :=
  match rows with
  | [] => []
  | x :: rows' => if id x =? fid then r :: rows' else x :: replace_row fid r rows'
  end.

(** [db.delete(file)] *)
Fixpoint remove_row (fid : Z) (rows : list UploadedFile) : list UploadedFile :=
  match rows with
  | [] => []
  | x :: rows' => if id x =? fid then rows' else x :: remove_row fid rows'
  end.

Definition ALLOWED_EXTENSIONS : list str :=
  [py ".jpg"; py ".jpeg"; py ".png"; py ".pdf"].

Definition str_in (s : str) (l : list str) : bool := existsb (str_eqb s) l.

(** ** Reference instances of the library parameters

    Concrete versions of the library functions on the code points below
    256, used to run the handlers on sample requests. *)

Definition in_range (lo hi c : N) : bool := (N.leb lo c && N.leb c hi)%bool.

(** [str.isalnum] on Latin-1: letters, digits, superscript digits and
    vulgar fractions. *)
Definition latin1_isalnum (c : char) : bool :=
  in_range 48 57 c || in_range 65 90 c || in_range 97 122 c ||
  N.eqb c 170 || N.eqb c 178 || N.eqb c 179 || N.eqb c 181 ||
  N.eqb c 185 || N.eqb c 186 || in_range 188 190 c ||
  in_range 192 214 c || in_range 216 246 c || in_range 248 255 c.

(** [str.isspace] on Latin-1. *)
Definition latin1_isspace (c : char) : bool :=
  in_range 9 13 c || in_range 28 32 c || N.eqb c 133 || N.eqb c 160.

(** [str.lower] on Latin-1. *)
Definition latin1_lower_char (c : char) : char :=
  if in_range 65 90 c || in_range 192 214 c || in_range 216 222 c
  then (c + 32)%N else c.

Definition latin1_lower (s : str) : str := map latin1_lower_char s.

Definition digit_value (c : char) : option Z :=
  if in_range 48 57 c then Some (Z.of_N c - 48) else None.

Fixpoint number_of (acc : Z) (s : str) : option Z :=
  match s with
  | [] => Some acc
  | c :: s' =>
      match digit_value c with
      | Some v => number_of (10 * acc + v) s'
      | None => None
      end
  end.

(** A date parser that accepts [YYYY-MM-DD] and nothing else. *)
Definition iso_parse (s : str) : option datetime :=
  match s with
  | [y1; y2; y3; y4; s1; m1; m2; s2; d1; d2] =>
      match number_of 0 [y1; y2; y3; y4], number_of 0 [m1; m2], number_of 0 [d1; d2] with
      | Some y, Some m, Some d =>
          if N.eqb s1 c_dash && N.eqb s2 c_dash &&
             (1 <=? y) && (1 <=? m) && (m <=? 12) &&
             (1 <=? d) && (d <=? days_in_month y m)
          then Some (DateTime (Date y m d) 0 0 0)
          else None
      | _, _, _ => None
      end
  | _ => None
  end.

Fixpoint is_prefix (a b : str) : bool :=
  match a, b with
  | [], _ => true
  | x :: a', y :: b' => N.eqb x y && is_prefix a' b'
  | _ :: _, [] => false
  end.

Fixpoint is_infix (a b : str) : bool :=
  is_prefix a b || match b with [] => false | _ :: b' => is_infix a b' end.

(** Case-insensitive containment, for patterns without [%] and [_]. *)
Definition latin1_ilike_contains (value pattern : str) : bool :=
  is_infix (latin1_lower pattern) (latin1_lower value).

Definition sample_folder : str := py "/srv/backup".

Definition noon (y m d : Z) : datetime := DateTime (Date y m d) 12 0 0.

Definition quiet_env : env :=
  {| now := DateTime (Date 2024 3 5) 9 7 30;
     makedirs_fails := false; blob_write := WriteOk; remove_fails := false;
     execute_fails := false; commit_fails := false |}.

Definition sample_row (fid : Z) (name own : str) (rd : option datetime)
    (amount : option Z) : UploadedFile :=
  {| id := fid; filename := name; owner := own; work_detail := None;
     uploaded_at := noon 2024 1 1; client_ip := None; ocr_text := None;
     receipt_date := rd; total_amount := amount;
     similarity_status := Some (py "No");
     similar_to_file_id := None; similarity_score := None |}.

Definition empty_world : world := World [] 1 ∅ [].

(** Record 5 belongs to bob and its blob is on disk; record 6 has no blob. *)
Definition sample_world : world :=
  {| db := [sample_row 5 (py "a.pdf") (py "bob") (Some (midnight (Date 2024 1 31))) (Some 1250);
            sample_row 6 (py "b.png") (py "carol") (Some (midnight (Date 2024 2 1))) None];
     next_id := 7;
     disk := {[ py "/srv/backup/a.pdf" := [37; 80; 68; 70]%N ]};
     log := [] |}.

Definition sample_upload (name : str) : upload_request :=
  {| up_filename := Some name; up_bytes := [1; 2; 3]%N; up_owner := py "alice";
     up_work_detail := None; up_client := Some (py "10.0.0.7") |}.

Definition no_filter : files_query :=
  {| q_owner := None; q_filename := None; q_receipt_date_start := None;
     q_receipt_date_end := None; q_total_amount_min := None;
     q_total_amount_max := None; q_similarity_status := None |}.

Definition set_owner (o : option str) (q : files_query) : files_query :=
  FilesQuery o (q_filename q) (q_receipt_date_start q) (q_receipt_date_end q)
    (q_total_amount_min q) (q_total_amount_max q) (q_similarity_status q).

Definition set_filename (o : option str) (q : files_query) : files_query :=
  FilesQuery (q_owner q) o (q_receipt_date_start q) (q_receipt_date_end q)
    (q_total_amount_min q) (q_total_amount_max q) (q_similarity_status q).

Definition set_receipt_date_start (o : option str) (q : files_query) : files_query :=
  FilesQuery (q_owner q) (q_filename q) o (q_receipt_date_end q)
    (q_total_amount_min q) (q_total_amount_max q) (q_similarity_status q).

Definition set_receipt_date_end (o : option str) (q : files_query) : files_query :=
  FilesQuery (q_owner q) (q_filename q) (q_receipt_date_start q) o
    (q_total_amount_min q) (q_total_amount_max q) (q_similarity_status q).

Definition set_total_amount_min (o : option Q) (q : files_query) : files_query :=
  FilesQuery (q_owner q) (q_filename q) (q_receipt_date_start q) (q_receipt_date_end q)
    o (q_total_amount_max q) (q_similarity_status q).

Definition set_total_amount_max (o : option Q) (q : files_query) : files_query :=
  FilesQuery (q_owner q) (q_filename q) (q_receipt_date_start q) (q_receipt_date_end q)
    (q_total_amount_min q) o (q_similarity_status q).

Definition set_similarity_status (o : option str) (q : files_query) : files_query :=
  FilesQuery (q_owner q) (q_filename q) (q_receipt_date_start q) (q_receipt_date_end q)
    (q_total_amount_min q) (q_total_amount_max q) o.

Definition sample_form : update_form :=
  {| f_owner := py "dave"; f_work_detail := None; f_ocr_text := Some (py "TOTAL 9.99");
     f_receipt_date := Some []; f_total_amount := Some 999;
     f_similarity_status := None; f_similar_to_file_id := None;
     f_similarity_score := None |}.

(** ** Read-only handlers: responses and log records *)

(** [get_file_details] and [download_file] read the table and the disk and
    change neither; each is given as the answer it returns together with
    the records it sends to the logger. *)
Inductive access_msg :=
| MsgDetailsFailed (fid : Z) (e : exn)   (* "Failed to fetch file details for ID {fid}: {e}" *)
| MsgDownloadFailed (fid : Z) (e : exn). (* "Failed to download file ID {fid}: {e}" *)

(** [FileResponse(path=..., filename=..., media_type=..., headers=...)] *)
Record FileResponse := mkFileResponse {
  fr_path : str;
  fr_filename : str;
  fr_media_type : str;
  fr_content_disposition : str
}.

(** [mimetypes.guess_type] by extension, for the accepted file types. *)
Definition sample_guess_type (path : str) : option str :=
  let ext := latin1_lower (snd (splitext path)) in
  if str_eqb ext (py ".pdf") then Some (py "application/pdf")
  else if str_eqb ext (py ".png") then Some (py "image/png")
  else if str_eqb ext (py ".jpg") || str_eqb ext (py ".jpeg") then Some (py "image/jpeg")
  else None.

Definition hex_digit (n : N) : char :=
  if N.ltb n 10 then (48 + n)%N else (55 + n)%N.

(** [urllib.parse.quote] on code points below 128: letters, digits and
    [_ . - ~ /] stay, any other character becomes [%XX]. *)
Definition ascii_quote_char (c : char) : str :=
  if in_range 48 57 c || in_range 65 90 c || in_range 97 122 c ||
     N.eqb c c_underscore || N.eqb c c_dot || N.eqb c c_dash ||
     N.eqb c 126 || N.eqb c c_slash
  then [c]
  else [37%N; hex_digit (c / 16); hex_digit (c mod 16)].

Definition ascii_quote (s : str) : str := flat_map ascii_quote_char s.

(** ** The handlers *)

Section App.

#[local] Set Default Proof Using "Type".

(** [c.isalnum()], [c.isspace()] and [s.lower()] of Python's [str]. *)
Variable isalnum : char -> bool.
Variable isspace : char -> bool.
Variable lower : str -> str.

(** [dateutil.parser.parse(s)]; [None] stands for [ValueError]. *)
Variable parse : str -> option datetime.

(** [column.ilike(f"%{pattern}%")] as the database evaluates it. *)
Variable ilike_contains : str -> str -> bool.

Variable BACKUP_FOLDER : str.

(** *** Upload *)

(** [c.isalnum() or c in ('.', '_', '-')] *)
Definition keep_char (c : char) : bool :=
  isalnum c || N.eqb c c_dot || N.eqb c c_underscore || N.eqb c c_dash.

Fixpoint lstrip (s : str) : str :=
  match s with
  | c :: s' => if isspace c then lstrip s' else s
  | [] => []
  end.

(** [s.strip()] *)
Definition strip (s : str) : str := rev (lstrip (rev (lstrip s))).

(** The characters [c] of [name] with [c.isalnum() or c in ('.', '_', '-')],
    joined and then [.strip()]ped. *)
Definition sanitize (name : str) : str := strip (List.filter keep_char name).

Definition parse_date (s : str) : M date :=
  match parse s with
  | Some t => lift (call_date (PyDateTime t))
  | None => raise ValueError
  end.

Definition new_row (fid : Z) (fname own : str) (wd cip : option str)
    (t : datetime) : UploadedFile :=
  {| id := fid; filename := fname; owner := own; work_detail := wd;
     uploaded_at := t; client_ip := cip; ocr_text := None;
     receipt_date := None; total_amount := None;
     similarity_status := Some (py "No");
     similar_to_file_id := None; similarity_score := None |}.

Definition upload_file (ev : env) (rq : upload_request) : M response :=
  logger INFO (MsgReceivedUpload (up_filename rq) (up_owner rq) (up_work_detail rq)) ;;;
  try_except
    ((if negb (opt_truthy (up_filename rq))
      then raise (HTTPException 400 (Lit "No file selected for upload."))
      else ret tt) ;;;
     let name := default [] (up_filename rq) in
     let file_extension := lower (snd (splitext name)) in
     (if negb (str_in file_extension ALLOWED_EXTENSIONS)
      then raise (HTTPException 400
                    (Lit "Invalid file type. Only JPG, JPEG, PNG, PDF are allowed."))
      else ret tt) ;;;
     let sanitized := sanitize name in
     let sanitized_filename :=
       if negb (str_truthy sanitized)
       then py "uploaded_file_" ++ strftime_compact (now ev) ++ file_extension
       else sanitized in
     let file_path := os_path_join BACKUP_FOLDER sanitized_filename in
     logger INFO (MsgSaving file_path) ;;;
     os_makedirs ev ;;;
     write_blob ev file_path (up_bytes rq) ;;;
     let client_ip := up_client rq in
     try_except
       (w <- get_world ;;
        let new_file :=
          new_row (next_id w) sanitized_filename (up_owner rq)
                  (up_work_detail rq) client_ip (now ev) in
        db_commit ev (db w ++ [new_file]) (next_id w + 1) ;;;
        logger INFO (MsgUploaded (filename new_file) (id new_file)) ;;;
        ret (Resp 200 (UploadOk (id new_file))))
       is_Exception
       (fun e =>
          db_rollback ;;;
          logger ERROR (MsgDbSaveFailed e) ;;;
          raise (HTTPException 500 (Fmt "Failed to save file info to database: " e))))
    is_Exception
    (fun e =>
       logger ERROR (MsgUploadError e) ;;;
       raise (HTTPException 500 (Fmt "An error occurred during upload: " e))).

(** The stored name as the specification words it: keep the characters
    that are alphanumeric or one of [. _ -], drop the others, trim
    whitespace at both ends; when nothing is left, [uploaded_file_], the
    time stamp and the lower-cased extension of the original name. *)
Fixpoint retain_allowed (name : str) : str :=
  match name with
  | [] => []
  | c :: rest =>
      if isalnum c then c :: retain_allowed rest
      else if bool_decide (c ∈ [c_dot; c_underscore; c_dash])
      then c :: retain_allowed rest
      else retain_allowed rest
  end.

Fixpoint trim_left (s : str) : str :=
  match s with
  | c :: s' => if isspace c then trim_left s' else c :: s'
  | [] => []
  end.

Definition trim_right (s : str) : str := rev (trim_left (rev s)).

Definition spec_stored_filename (t : datetime) (original : str) : str :=
  match trim_right (trim_left (retain_allowed original)) with
  | [] => py "uploaded_file_" ++ strftime_compact t ++ lower (snd (splitext original))
  | kept => kept
  end.

(** *** Filtered list *)

(** The [where] clauses a query is made of. *)
Inductive clause :=
| OwnerEq (s : str)                  (* UploadedFile.owner == s *)
| FilenameIlike (pattern : str)      (* UploadedFile.filename.ilike(f"%{pattern}%") *)
| ReceiptDateGe (d : date)           (* UploadedFile.receipt_date >= d *)
| ReceiptDateLt (d : date)           (* UploadedFile.receipt_date < d *)
| TotalAmountGe (x : Q)              (* UploadedFile.total_amount >= x *)
| TotalAmountLe (x : Q)              (* UploadedFile.total_amount <= x *)
| SimilarityStatusEq (s : str).      (* UploadedFile.similarity_status == s *)

(** SQL selects a row when the clause is true; a comparison with [NULL]
    is not. *)
Definition eval_clause (c : clause) (f : UploadedFile) : bool :=
  match c with
  | OwnerEq s => str_eqb (owner f) s
  | FilenameIlike pattern => ilike_contains (filename f) pattern
  | ReceiptDateGe d =>
      match receipt_date f with
      | Some t => datetime_geb t (midnight d)
      | None => false
      end
  | ReceiptDateLt d =>
      match receipt_date f with
      | Some t => datetime_ltb t (midnight d)
      | None => false
      end
  | TotalAmountGe x =>
      match total_amount f with
      | Some a => Qle_bool x (Qmake a 100)
      | None => false
      end
  | TotalAmountLe x =>
      match total_amount f with
      | Some a => Qle_bool (Qmake a 100) x
      | None => false
      end
  | SimilarityStatusEq s =>
      match similarity_status f with
      | Some t => str_eqb t s
      | None => false
      end
  end.

Definition select_where (query : list clause) (rows : list UploadedFile)
    : list UploadedFile :=
  List.filter (fun f => forallb (fun c => eval_clause c f) query) rows.

(** [if o: ... else: ...] on an optional [str] parameter. *)
Definition if_truthy {A} (o : option str) (then_ : str -> A) (else_ : A) : A :=
  match o with
  | Some (c :: s) => then_ (c :: s)
  | _ => else_
  end.

(** [if o is not None: ... else: ...] *)
Definition if_not_None {A B} (o : option B) (then_ : B -> A) (else_ : A) : A :=
  match o with
  | Some x => then_ x
  | None => else_
  end.

(** [end_date + pd.Timedelta(days=1)]: [date.__add__] with a [timedelta]
    gives a [datetime.date], or raises [OverflowError] past [date.max]. *)
Definition date_add_Timedelta_1 (d : date) : exn + pyobj :=
  match date_add_one_day d with
  | Some d' => inr (PyDate d')
  | None => inl OverflowError
  end.

Definition build_query (q : files_query) : M (list clause) :=
  let query := [] in
  let query := if_truthy (q_owner q) (fun s => query ++ [OwnerEq s]) query in
  let query := if_truthy (q_filename q) (fun s => query ++ [FilenameIlike s]) query in
  query <-
    if_truthy (q_receipt_date_start q)
      (fun s =>
         try_except
           (start_date <- parse_date s ;;
            ret (query ++ [ReceiptDateGe start_date]))
           is_ValueError
           (fun _ => raise (HTTPException 400
              (Lit "Invalid receipt_date_start format. Use YYYY-MM-DD."))))
      (ret query) ;;
  query <-
    if_truthy (q_receipt_date_end q)
      (fun s =>
         try_except
           (end_date <- parse_date s ;;
            next_day <- lift (date_add_Timedelta_1 end_date) ;;
            bound <- lift (call_date next_day) ;;
            ret (query ++ [ReceiptDateLt bound]))
           is_ValueError
           (fun _ => raise (HTTPException 400
              (Lit "Invalid receipt_date_end format. Use YYYY-MM-DD."))))
      (ret query) ;;
  let query :=
    if_not_None (q_total_amount_min q) (fun x => query ++ [TotalAmountGe x]) query in
  let query :=
    if_not_None (q_total_amount_max q) (fun x => query ++ [TotalAmountLe x]) query in
  let query :=
    if_truthy (q_similarity_status q) (fun s => query ++ [SimilarityStatusEq s]) query in
  ret query.

Definition opt_cell {A} (mk : A -> cell) (o : option A) : cell :=
  match o with Some x => mk x | None => CNone end.

Definition file_json (f : UploadedFile) : list (string * cell) :=
  [("id", CInt (id f));
   ("filename", CStr (filename f));
   ("owner", CStr (owner f));
   ("work_detail", opt_cell CStr (work_detail f));
   ("uploaded_at", CIso (uploaded_at f));
   ("client_ip", opt_cell CStr (client_ip f));
   ("ocr_text", opt_cell CStr (ocr_text f));
   ("receipt_date", opt_cell CIso (receipt_date f));
   ("total_amount", opt_cell CFloat (total_amount f));
   ("similarity_status", opt_cell CStr (similarity_status f));
   ("similar_to_file_id", opt_cell CInt (similar_to_file_id f));
   ("similarity_score", opt_cell CFloat (similarity_score f))]%string.

(** [files = db.execute(query).scalars().all()] *)
Definition query_files (ev : env) (q : files_query) : M (list UploadedFile) :=
  query <- build_query q ;;
  rows <- db_execute ev ;;
  ret (select_where query rows).

Definition get_files (ev : env) (q : files_query) : M response :=
  try_except
    (files <- query_files ev q ;;
     ret (Resp 200 (FilesData (map file_json files))))
    is_Exception
    (fun e =>
       logger ERROR (MsgFetchFailed e) ;;;
       raise (HTTPException 500 (Fmt "Failed to fetch files: " e))).

(** *** Update *)

Definition update_file (ev : env) (file_id : Z) (form : update_form) : M response :=
  try_except
    (rows <- db_execute ev ;;
     match first (List.filter (fun f => id f =? file_id) rows) with
     | None => raise (HTTPException 404 (Lit "File not found"))
     | Some file =>
         new_receipt_date <-
           if_truthy (f_receipt_date form)
             (fun s =>
                try_except
                  (d <- parse_date s ;; ret (Some (midnight d)))
                  is_ValueError
                  (fun _ => raise (HTTPException 400
                     (Lit "Invalid receipt_date format. Use YYYY-MM-DD."))))
             (ret None) ;;
         let file' :=
           {| id := id file; filename := filename file;
              owner := f_owner form;
              work_detail := f_work_detail form;
              uploaded_at := uploaded_at file; client_ip := client_ip file;
              ocr_text := f_ocr_text form;
              receipt_date := new_receipt_date;
              total_amount := f_total_amount form;
              similarity_status := f_similarity_status form;
              similar_to_file_id := f_similar_to_file_id form;
              similarity_score := f_similarity_score form |} in
         w <- get_world ;;
         db_commit ev (replace_row (id file) file' rows) (next_id w) ;;;
         logger INFO (MsgUpdated file_id) ;;;
         ret (Resp 200 (UpdateOk (id file')))
     end)
    is_Exception
    (fun e =>
       db_rollback ;;;
       logger ERROR (MsgUpdateFailed file_id e) ;;;
       raise (HTTPException 500 (Fmt "Failed to update file: " e))).

(** *** Delete *)

Definition delete_match (file_id : Z) (own : str) (f : UploadedFile) : bool :=
  (id f =? file_id) && str_eqb (owner f) own.

Definition delete_file (ev : env) (file_id : Z) (own : str) : M response :=
  try_except
    (rows <- db_execute ev ;;
     match first (List.filter (delete_match file_id own) rows) with
     | None => raise (HTTPException 404 (Lit "File not found or owner mismatch."))
     | Some file =>
         let file_path := os_path_join BACKUP_FOLDER (filename file) in
         on_disk <- os_path_exists file_path ;;
         (if on_disk
          then os_remove ev file_path ;;;
               logger INFO (MsgDiskDeleted (filename file))
          else logger WARNING (MsgDiskMissing (filename file) file_id file_path)) ;;;
         w <- get_world ;;
         db_commit ev (remove_row (id file) rows) (next_id w) ;;;
         logger INFO (MsgDbDeleted file_id) ;;;
         ret (Resp 200 DeleteOk)
     end)
    is_Exception
    (fun e =>
       db_rollback ;;;
       logger ERROR (MsgDeleteFailed file_id e) ;;;
       raise (HTTPException 500 (Fmt "Failed to delete file: " e))).

(** *** CSV export *)

Definition csv_record (f : UploadedFile) : list (string * cell) :=
  [("ID", CInt (id f));
   ("Filename", CStr (filename f));
   ("Owner", CStr (owner f));
   ("Work Detail", opt_cell CStr (work_detail f));
   ("Uploaded At", CIso (uploaded_at f));
   ("Client IP", opt_cell CStr (client_ip f));
   ("OCR Text", opt_cell CStr (ocr_text f));
   ("Receipt Date", opt_cell CIso (receipt_date f));
   ("Total Amount", opt_cell CFloat (total_amount f));
   ("Similarity Status", opt_cell CStr (similarity_status f));
   ("Similar To File ID", opt_cell CInt (similar_to_file_id f));
   ("Similarity Score", opt_cell CFloat (similarity_score f))]%string.

(** [pd.DataFrame(data)] for a list of dicts with the same keys: the keys
    of the first dict are the columns, each dict is a row. *)
Record DataFrame := mkDataFrame {
  columns : list string;
  values : list (list cell)
}.

Definition DataFrame_of (data : list (list (string * cell))) : DataFrame :=
  {| columns := match data with d :: _ => map fst d | [] => [] end;
     values := map (map snd) data |}.

(** [df.to_csv(buffer, index=False)]: the header line, then a line per
    row; each line is kept as its list of fields. *)
Definition to_csv (df : DataFrame) : list (list cell) :=
  map (fun c => CStr (py c)) (columns df) :: values df.

(** [t.strftime('%Y%m%d_%H%M%S')] *)
Definition strftime_underscore (t : datetime) : str :=
  pad_digits 4 (year (dt_date t)) ++ pad_digits 2 (month (dt_date t)) ++
  pad_digits 2 (day (dt_date t)) ++ [c_underscore] ++ pad_digits 2 (hour t) ++
  pad_digits 2 (minute t) ++ pad_digits 2 (second t).

Definition export_to_csv (ev : env) : M response :=
  try_except
    (files <- db_execute ev ;;
     match files with
     | [] => ret (Resp 204 EmptyBody)
     | _ :: _ =>
         let data := map csv_record files in
         let df := DataFrame_of data in
         let csv_filename :=
           py "uploaded_files_export_" ++ strftime_underscore (now ev) ++ py ".csv" in
         ret (Resp 200 (CsvBody (to_csv df) csv_filename))
     end)
    is_Exception
    (fun e =>
       logger ERROR (MsgExportFailed e) ;;;
       raise (HTTPException 500 (Fmt "Failed to export to CSV: " e))).

(** *** Record details *)

(** [mimetypes.guess_type(path)[0]] and [urllib.parse.quote(s)]. *)
Variable guess_type : str -> option str.
Variable quote : str -> str.

(** The dict [file_details] of [get_file_details]. *)
Definition file_details (file : UploadedFile) : list (string * cell) :=
  [("id", CInt (id file));
   ("filename", CStr (filename file));
   ("owner", CStr (owner file));
   ("work_detail", opt_cell CStr (work_detail file));
   ("uploaded_at", CIso (uploaded_at file));
   ("client_ip", opt_cell CStr (client_ip file));
   ("ocr_text", opt_cell CStr (ocr_text file));
   ("receipt_date", opt_cell CIso (receipt_date file));
   ("total_amount", opt_cell CFloat (total_amount file));
   ("similarity_status", opt_cell CStr (similarity_status file));
   ("similar_to_file_id", opt_cell CInt (similar_to_file_id file));
   ("similarity_score", opt_cell CFloat (similarity_score file))]%string.

(** [except Exception as e: logger.error(msg e); raise HTTPException(500,
    f"{prefix}{e}")] around a body that only reads. *)
Definition report_failure {A} (msg : exn -> access_msg) (prefix : string)
    (body : exn + A) : (exn + A) * list (level * access_msg) :=
  match body with
  | inr a => (inr a, [])
  | inl e => (inl (HTTPException 500 (Fmt prefix e)), [(ERROR, msg e)])
  end.

Definition get_file_details (ev : env) (file_id : Z) (w : world)
    : (exn + list (string * cell)) * list (level * access_msg) :=
  report_failure (MsgDetailsFailed file_id) "Failed to fetch file details: "
    match fst (db_execute ev w) with
    | inl e => inl e
    | inr rows =>
        match first (List.filter (fun f => id f =? file_id) rows) with
        | None => inl (HTTPException 404 (Lit "File not found"))
        | Some file => inr (file_details file)
        end
    end.

(** *** Download *)

Definition download_file (ev : env) (file_id : Z) (w : world)
    : (exn + FileResponse) * list (level * access_msg) :=
  report_failure (MsgDownloadFailed file_id) "Failed to download file: "
    match fst (db_execute ev w) with
    | inl e => inl e
    | inr rows =>
        match first (List.filter (fun f => id f =? file_id) rows) with
        | None => inl (HTTPException 404 (Lit "File not found."))
        | Some file =>
            let file_path := os_path_join BACKUP_FOLDER (filename file) in
            if negb (bool_decide (is_Some (disk w !! file_path)))
            then inl (HTTPException 404 (Lit "File not found on disk."))
            else
              let media_type :=
                if negb (opt_truthy (guess_type file_path))
                then py "application/octet-stream"
                else default [] (guess_type file_path) in
              inr {| fr_path := file_path;
                     fr_filename := filename file;
                     fr_media_type := media_type;
                     fr_content_disposition :=
                       py "attachment; filename=" ++ quote (filename file) |}
        end
    end.

(** ** Predicates used in the statements *)

Definition accepted (rq : upload_request) (name : str) : Prop :=
  up_filename rq = Some name /\ str_truthy name = true /\
  str_in (lower (snd (splitext name))) ALLOWED_EXTENSIONS = true.

Definition rejected_extension (rq : upload_request) (name : str) : Prop :=
  up_filename rq = Some name /\ str_truthy name = true /\
  str_in (lower (snd (splitext name))) ALLOWED_EXTENSIONS = false.

(** An optional date parameter that is supplied and does not parse. *)
Definition unparseable (o : option str) : Prop :=
  exists s, o = Some s /\ str_truthy s = true /\ parse s = None.

(** An optional date parameter that is supplied and parses to [t]. *)
Definition parses_to (o : option str) (t : datetime) : Prop :=
  exists s, o = Some s /\ str_truthy s = true /\ parse s = Some t.

(** An optional date parameter that is absent, empty or parses. *)
Definition absent_or_parses (o : option str) : Prop :=
  if_truthy o (fun s => is_Some (parse s)) True.

(** Keep the rows of a result that satisfy [p]. *)
Definition narrow (p : UploadedFile -> bool)
    (r : (exn + list UploadedFile) * world) : (exn + list UploadedFile) * world :=
  match r with
  | (inr files, w) => (inr (List.filter p files), w)
  | (inl e, w) => (inl e, w)
  end.

(** The row [update_file] and [get_file_details] look up. *)
Definition find_by_id (file_id : Z) (rows : list UploadedFile) : option UploadedFile :=
  first (List.filter (fun f => id f =? file_id) rows).

(** The row [delete_file] looks up. *)
Definition find_for_delete (file_id : Z) (own : str) (rows : list UploadedFile)
    : option UploadedFile :=
  first (List.filter (delete_match file_id own) rows).

(** The value an update form gives [receipt_date]; the outer [None] is a
    supplied date that does not parse. *)
Definition new_receipt_date (o : option str) : option (option datetime) :=
  if_truthy o
    (fun s => match parse s with
              | Some t => Some (Some (midnight (dt_date t)))
              | None => None
              end)
    (Some None).

(** A row after a wholesale update: [id], [filename], [uploaded_at] and
    [client_ip] stay, every other column comes from the form. *)
Definition updated_row (file : UploadedFile) (form : update_form)
    (rd : option datetime) : UploadedFile :=
  {| id := id file; filename := filename file;
     owner := f_owner form;
     work_detail := f_work_detail form;
     uploaded_at := uploaded_at file; client_ip := client_ip file;
     ocr_text := f_ocr_text form;
     receipt_date := rd;
     total_amount := f_total_amount form;
     similarity_status := f_similarity_status form;
     similar_to_file_id := f_similar_to_file_id form;
     similarity_score := f_similarity_score form |}.

(** The column headers of the export. *)
Definition CSV_HEADERS : list string :=
  ["ID"; "Filename"; "Owner"; "Work Detail"; "Uploaded At"; "Client IP";
   "OCR Text"; "Receipt Date"; "Total Amount"; "Similarity Status";
   "Similar To File ID"; "Similarity Score"]%string.

(** The primary key is unique and every key in use is below the next one
    the database hands out. *)
Definition well_keyed (w : world) : Prop :=
  NoDup (map id (db w)) /\ forall f, In f (db w) -> id f < next_id w.

(** An upload environment in which nothing fails. *)
Definition no_faults (ev : env) : Prop :=
  makedirs_fails ev = false /\ blob_write ev = WriteOk /\
  remove_fails ev = false /\ execute_fails ev = false /\ commit_fails ev = false.

(** Every error a handler raises is an [HTTPException] with status 500. *)
Definition is_500 {A} (r : exn + A) : Prop :=
  match r with
  | inl (HTTPException 500 _) => True
  | inl _ => False
  | inr _ => True
  end.

(** A string that is empty or starts with a character that is not
    whitespace. *)
Definition clean_head (s : str) : Prop :=
  match s with [] => True | c :: _ => isspace c = false end.

(** The start date a query asks for: [Some None] when the parameter is
    absent or empty, [None] when it is supplied and does not parse. *)
Definition start_bound (q : files_query) : option (option date) :=
  if_truthy (q_receipt_date_start q)
    (fun s => match parse s with
              | Some t => Some (Some (dt_date t))
              | None => None
              end)
    (Some None).

(** The clauses of a query without an end date. *)
Definition clauses_of (q : files_query) (start : option date) : list clause :=
  let query := [] in
  let query := if_truthy (q_owner q) (fun s => query ++ [OwnerEq s]) query in
  let query := if_truthy (q_filename q) (fun s => query ++ [FilenameIlike s]) query in
  let query := if_not_None start (fun d => query ++ [ReceiptDateGe d]) query in
  let query :=
    if_not_None (q_total_amount_min q) (fun x => query ++ [TotalAmountGe x]) query in
  let query :=
    if_not_None (q_total_amount_max q) (fun x => query ++ [TotalAmountLe x]) query in
  if_truthy (q_similarity_status q) (fun s => query ++ [SimilarityStatusEq s]) query.

(** A row satisfies every predicate the query supplies. *)
Definition matches (q : files_query) (start : option date) (f : UploadedFile) : bool :=
  if_truthy (q_owner q) (fun s => str_eqb (owner f) s) true &&
  if_truthy (q_filename q) (fun s => ilike_contains (filename f) s) true &&
  if_not_None start
    (fun d => match receipt_date f with
              | Some t => datetime_geb t (midnight d)
              | None => false
              end) true &&
  if_not_None (q_total_amount_min q)
    (fun x => match total_amount f with
              | Some a => Qle_bool x (Qmake a 100)
              | None => false
              end) true &&
  if_not_None (q_total_amount_max q)
    (fun x => match total_amount f with
              | Some a => Qle_bool (Qmake a 100) x
              | None => false
              end) true &&
  if_truthy (q_similarity_status q)
    (fun s => match similarity_status f with
              | Some t => str_eqb t s
              | None => false
              end) true.


(** ** Properties *)

Arguments splitext : simpl never.
Arguments str_in : simpl never.
Arguments py : simpl never.
Arguments strftime_compact : simpl never.
Arguments strftime_underscore : simpl never.
Arguments sanitize : simpl never.
Arguments os_path_join : simpl never.
Arguments select_where : simpl never.
Arguments first : simpl never.

Ltac run_monad :=
  unfold try_except, bind, ret, raise, lift, logger, get_world, db_execute,
    db_commit, db_rollback, os_makedirs, write_blob, os_path_exists, os_remove,
    is_Exception;
  cbn.

(** *** Sanitization *)

Lemma lstrip_trim_left (s : str) : lstrip s = trim_left s.
Proof. induction s as [|c s IH]; simpl; [reflexivity|]. now destruct (isspace c). Qed.

Lemma retain_allowed_filter (name : str) :
  retain_allowed name = List.filter keep_char name.
Proof.
  induction name as [|c name IH]; [reflexivity|].
  cbn [retain_allowed List.filter]. rewrite IH.
  destruct (isalnum c) eqn:A.
  { replace (keep_char c) with true; [reflexivity|].
    unfold keep_char. now rewrite A. }
  destruct (bool_decide_reflect (c ∈ [c_dot; c_underscore; c_dash])) as [H|H].
  - replace (keep_char c) with true; [reflexivity|].
    symmetry. unfold keep_char. rewrite A. cbn [orb].
    rewrite !orb_true_iff, !N.eqb_eq.
    apply list_elem_of_In in H. simpl in H.
    destruct H as [<-|[<-|[<-|[]]]]; auto.
  - replace (keep_char c) with false; [reflexivity|].
    symmetry. unfold keep_char. rewrite A. cbn [orb].
    apply not_true_is_false. rewrite !orb_true_iff, !N.eqb_eq.
    intros E. apply H, list_elem_of_In. simpl.
    destruct E as [[->| ->]| ->]; auto.
Qed.

Lemma sanitize_as_specified (name : str) :
  sanitize name = trim_right (trim_left (retain_allowed name)).
Proof.
  unfold sanitize, strip, trim_right.
  now rewrite !lstrip_trim_left, retain_allowed_filter.
Qed.

Lemma stored_name_as_specified (t : datetime) (name : str) :
  (if negb (str_truthy (sanitize name))
   then py "uploaded_file_" ++ strftime_compact t ++ lower (snd (splitext name))
   else sanitize name) = spec_stored_filename t name.
Proof.
  unfold spec_stored_filename. rewrite <- sanitize_as_specified.
  now destruct (sanitize name).
Qed.

Lemma lstrip_suffix (s : str) : exists p, s = p ++ lstrip s.
Proof.
  induction s as [|c s [p Hp]]; simpl; [now exists []|].
  destruct (isspace c); [|now exists []].
  exists (c :: p). simpl. now f_equal.
Qed.

Lemma strip_Forall (P : char -> Prop) (s : str) : Forall P s -> Forall P (strip s).
Proof.
  intros H. unfold strip.
  assert (Hl : Forall P (lstrip s)).
  { destruct (lstrip_suffix s) as [p Hp]. rewrite Hp in H.
    now apply Forall_app in H. }
  apply Forall_rev. 
  destruct (lstrip_suffix (rev (lstrip s))) as [p Hp].
  apply Forall_rev in Hl. rewrite Hp in Hl. now apply Forall_app in Hl.
Qed.

(** Every character of a sanitized name is alphanumeric or one of [. _ -]. *)
Lemma sanitize_only_allowed (name : str) :
  Forall (fun c => keep_char c = true) (sanitize name).
Proof.
  unfold sanitize. apply strip_Forall.
  apply List.Forall_forall. intros c Hc. now apply List.filter_In in Hc.
Qed.

(** *** [os.path.splitext] *)

Lemma rfind_from_In (c : char) (s : str) (i : Z) :
  0 <= rfind_from c s i -> In c s.
Proof.
  revert i. induction s as [|x s IH]; simpl; intros i H; [lia|].
  destruct (0 <=? rfind_from c s (i + 1)) eqn:E.
  - right. apply (IH (i + 1)). lia.
  - destruct (N.eqb_spec x c); [now left | lia].
Qed.

Lemma rfind_from_lower_bound (c : char) (s : str) (i : Z) :
  0 <= i -> -1 <= rfind_from c s i.
Proof.
  revert i. induction s as [|x s IH]; simpl; intros i Hi; [lia|].
  destruct (0 <=? rfind_from c s (i + 1)) eqn:E; [lia|].
  destruct (N.eqb x c); lia.
Qed.

Lemma splitext_ext_has_dot (p : str) : snd (splitext p) <> [] -> In c_dot p.
Proof.
  unfold splitext.
  destruct ((rfind c_slash p <? rfind c_dot p) && _) eqn:E; simpl; [|congruence].
  intros _. apply andb_true_iff in E as [E _].
  apply (rfind_from_In c_dot p 0).
  pose proof (rfind_from_lower_bound c_slash p 0). unfold rfind in E. lia.
Qed.

Lemma lstrip_keeps (c : char) (s : str) :
  isspace c = false -> In c s -> In c (lstrip s).
Proof.
  intros Hc. induction s as [|x s IH]; simpl; [intros []|].
  intros [->|H].
  - rewrite Hc. now left.
  - destruct (isspace x); [now apply IH | now right].
Qed.

Lemma strip_keeps (c : char) (s : str) :
  isspace c = false -> In c s -> In c (strip s).
Proof.
  intros Hc H. unfold strip. rewrite <- in_rev.
  apply lstrip_keeps; [assumption|]. rewrite <- in_rev.
  now apply lstrip_keeps.
Qed.

(** An accepted upload never takes the synthesized-name branch: its
    extension starts with a dot, which sanitization keeps. *)
Lemma accepted_name_sanitizes_nonempty (name : str) :
  lower [] = [] -> isspace c_dot = false ->
  str_in (lower (snd (splitext name))) ALLOWED_EXTENSIONS = true ->
  sanitize name <> [].
Proof.
  intros Hlow Hdot Hext.
  assert (Hne : snd (splitext name) <> []).
  { intros E. rewrite E, Hlow in Hext. discriminate Hext. }
  apply splitext_ext_has_dot in Hne.
  assert (Hin : In c_dot (sanitize name)).
  { unfold sanitize. apply strip_keeps; [assumption|].
    apply List.filter_In. split; [assumption|].
    unfold keep_char. rewrite N.eqb_refl. now destruct (isalnum c_dot). }
  intros E. now rewrite E in Hin.
Qed.

(** *** Upload *)

(** A response is produced only for an accepted name, after the blob was
    written and the row committed. *)
Lemma upload_file_inr (ev : env) (rq : upload_request) (w w' : world) (resp : response) :
  upload_file ev rq w = (inr resp, w') ->
  exists name,
    accepted rq name /\
    makedirs_fails ev = false /\ blob_write ev = WriteOk /\ commit_fails ev = false /\
    let stored := spec_stored_filename (now ev) name in
    resp = Resp 200 (UploadOk (next_id w)) /\
    db w' = db w ++ [new_row (next_id w) stored (up_owner rq) (up_work_detail rq)
                       (up_client rq) (now ev)] /\
    next_id w' = next_id w + 1 /\
    disk w' = <[os_path_join BACKUP_FOLDER stored := up_bytes rq]> (disk w).
Proof.
  unfold upload_file, accepted. run_monad.
  destruct (up_filename rq) as [[|c name]|]; cbn; try discriminate.
  destruct (str_in _ ALLOWED_EXTENSIONS) eqn:Hext; cbn; try discriminate.
  rewrite stored_name_as_specified.
  destruct (makedirs_fails ev); cbn; try discriminate.
  destruct (blob_write ev); cbn; try discriminate.
  destruct (commit_fails ev); cbn; try discriminate.
  intros H. injection H as <- <-. exists (c :: name). simpl. auto 10.
Qed.


(** C5: an upload whose lower-cased extension is not one of [.jpg .jpeg
    .png .pdf] is refused before sanitization and before any write, and
    leaves the table and the disk as they were; the refusal raised with
    status 400 reaches the caller as status 500. *)
Theorem C5_invalid_extension_reported_as_500
    (ev : env) (rq : upload_request) (w : world) (name : str) :
  rejected_extension rq name ->
  let refusal :=
    HTTPException 400 (Lit "Invalid file type. Only JPG, JPEG, PNG, PDF are allowed.") in
  exists w',
    upload_file ev rq w =
      (inl (HTTPException 500 (Fmt "An error occurred during upload: " refusal)), w') /\
    db w' = db w /\ disk w' = disk w /\
    log w' = log w ++
      [(INFO, MsgReceivedUpload (up_filename rq) (up_owner rq) (up_work_detail rq));
       (ERROR, MsgUploadError refusal)].
Proof.
  intros (Hn & Ht & Hext) refusal. unfold upload_file. run_monad.
  rewrite Hn. destruct name as [|c name]; [discriminate Ht|]. cbn.
  rewrite Hext. cbn. eexists. split; [reflexivity|]. cbn.
  rewrite <- app_assoc. auto.
Qed.

(** C7: the row of an upload is committed only after its blob was written.
    When the write fails the upload fails and the table is unchanged; when
    the write succeeds and the commit fails, the upload fails, the table is
    unchanged and the blob written stays on disk. *)
Theorem C7_row_only_after_blob
    (ev : env) (rq : upload_request) (w w' : world) (r : exn + response) (name : str) :
  accepted rq name ->
  upload_file ev rq w = (r, w') ->
  let path := os_path_join BACKUP_FOLDER (spec_stored_filename (now ev) name) in
  (db w' <> db w ->
     makedirs_fails ev = false /\ blob_write ev = WriteOk /\
     disk w' !! path = Some (up_bytes rq)) /\
  (makedirs_fails ev = true \/ blob_write ev <> WriteOk ->
     (exists e, r = inl e) /\ db w' = db w) /\
  (makedirs_fails ev = false -> blob_write ev = WriteOk -> commit_fails ev = true ->
     r = inl (HTTPException 500
                (Fmt "An error occurred during upload: "
                   (HTTPException 500
                      (Fmt "Failed to save file info to database: " SQLAlchemyError)))) /\
     db w' = db w /\ disk w' !! path = Some (up_bytes rq)).
Proof.
  intros (Hn & Ht & Hext). unfold upload_file. run_monad.
  rewrite Hn. destruct name as [|c name]; [discriminate Ht|]. cbn.
  rewrite Hext. cbn. rewrite stored_name_as_specified.
  assert (Hor : forall P Q : Prop, false = true \/ WriteOk <> WriteOk -> P /\ Q)
    by (intros P Q [?|?]; easy).
  destruct (makedirs_fails ev); cbn.
  { intros H; injection H as <- <-. cbn. repeat split; try easy; eauto. }
  destruct (blob_write ev) eqn:Hw; cbn.
  - destruct (commit_fails ev); cbn; intros H; injection H as <- <-; cbn;
      (split; [|split]); try apply Hor; try easy;
      intros; repeat split; try easy; apply lookup_insert_eq.
  - intros H; injection H as <- <-. cbn. repeat split; try easy; eauto.
  - intros H; injection H as <- <-. cbn. repeat split; try easy; eauto.
Qed.

(** *** Filtered list *)

Lemma select_where_insert (a b : list clause) (c : clause) (rows : list UploadedFile) :
  select_where (a ++ c :: b) rows =
  List.filter (eval_clause c) (select_where (a ++ b) rows).
Proof.
  unfold select_where. induction rows as [|f rows IH]; [reflexivity|].
  cbn [List.filter]. rewrite IH, !forallb_app. cbn [forallb].
  destruct (forallb _ a); cbn [andb]; [|reflexivity].
  destruct (eval_clause c f) eqn:Ec; cbn [andb].
  - destruct (forallb _ b); cbn [List.filter]; [now rewrite Ec | reflexivity].
  - destruct (forallb _ b); cbn [List.filter]; [now rewrite Ec | reflexivity].
Qed.

(** With a start date only, the list keeps the rows dated on or after it. *)
Lemma start_date_filter_selects (ev : env) (w : world) (s : str) (t : datetime) :
  execute_fails ev = false -> str_truthy s = true -> parse s = Some t ->
  query_files ev (set_receipt_date_start (Some s) no_filter) w =
  (inr (List.filter (eval_clause (ReceiptDateGe (dt_date t))) (db w)), w).
Proof.
  intros He Hs Hp. unfold query_files, build_query. run_monad.
  destruct s as [|c s]; [discriminate Hs|]. cbn.
  unfold parse_date. rewrite Hp. run_monad. rewrite He.
  unfold select_where. cbn. f_equal. f_equal.
  apply List.filter_ext. intros f. now rewrite andb_true_r.
Qed.

(** C3: with a non-empty end date that parses, the list returns no rows at
    all: computing the bound [(end_date + pd.Timedelta(days=1)).date()]
    raises, and the request ends with status 500. *)
Theorem C3_end_date_filter_raises
    (ev : env) (q : files_query) (w : world) (t : datetime) :
  parses_to (q_receipt_date_end q) t ->
  exists e w',
    get_files ev q w =
      (inl (HTTPException 500 (Fmt "Failed to fetch files: " e)), w') /\
    db w' = db w /\
    (absent_or_parses (q_receipt_date_start q) ->
     e = match date_add_one_day (dt_date t) with
         | Some _ => AttributeError "'datetime.date' object has no attribute 'date'"
         | None => OverflowError
         end).
Proof.
  intros (s & Hq & Hs & Hp). destruct s as [|c s]; [discriminate Hs|].
  unfold get_files, query_files, build_query, absent_or_parses. run_monad.
  rewrite Hq. cbn. unfold parse_date, date_add_Timedelta_1. rewrite Hp. run_monad.
  assert (Hdone : forall (e e0 : exn) (w0 : world) (P : Prop),
             db w0 = db w -> e = e0 ->
             exists e1 w',
               (inl (HTTPException 500 (Fmt "Failed to fetch files: " e)), w0) =
               (@inl exn response (HTTPException 500 (Fmt "Failed to fetch files: " e1)), w') /\
               db w' = db w /\ (P -> e1 = e0)).
  { intros e e0 w0 P Hw ->. now exists e0, w0. }
  destruct (q_receipt_date_start q) as [[|c0 s0]|]; cbn.
  - destruct (date_add_one_day (dt_date t)); cbn; now apply Hdone.
  - destruct (parse (c0 :: s0)) as [t0|]; cbn.
    + destruct (date_add_one_day (dt_date t)); cbn; now apply Hdone.
    + eexists _, _. split; [reflexivity|]. split; [reflexivity|].
      intros [? ?]; discriminate.
  - destruct (date_add_one_day (dt_date t)); cbn; now apply Hdone.
Qed.

(** C4: a date filter that is supplied and does not parse makes the list
    fail without a result; the error raised with status 400 reaches the
    caller as status 500. *)
Theorem C4_unparseable_date_reported_as_500
    (ev : env) (q : files_query) (w : world) :
  (unparseable (q_receipt_date_start q) ->
   exists w',
     get_files ev q w =
       (inl (HTTPException 500
               (Fmt "Failed to fetch files: "
                  (HTTPException 400
                     (Lit "Invalid receipt_date_start format. Use YYYY-MM-DD.")))),
        w') /\ db w' = db w) /\
  (absent_or_parses (q_receipt_date_start q) ->
   unparseable (q_receipt_date_end q) ->
   exists w',
     get_files ev q w =
       (inl (HTTPException 500
               (Fmt "Failed to fetch files: "
                  (HTTPException 400
                     (Lit "Invalid receipt_date_end format. Use YYYY-MM-DD.")))),
        w') /\ db w' = db w).
Proof.
  split.
  - intros (s & Hq & Hs & Hp). destruct s as [|c s]; [discriminate Hs|].
    unfold get_files, query_files, build_query. run_monad.
    rewrite Hq. cbn. unfold parse_date. rewrite Hp. run_monad. eauto.
  - intros Hstart (s & Hq & Hs & Hp). destruct s as [|c s]; [discriminate Hs|].
    unfold get_files, query_files, build_query, absent_or_parses in *. run_monad.
    rewrite Hq. cbn. unfold parse_date. rewrite Hp. run_monad.
    destruct (q_receipt_date_start q) as [[|c0 s0]|]; cbn in *; eauto.
    destruct Hstart as [t0 Ht0]. rewrite Ht0. cbn. eauto.
Qed.

Lemma select_where_snoc (a : list clause) (c : clause) (rows : list UploadedFile) :
  select_where (a ++ [c]) rows = List.filter (eval_clause c) (select_where a rows).
Proof.
  rewrite <- (app_nil_r a) at 2. apply select_where_insert.
Qed.

Lemma filter_swap {A} (p r : A -> bool) (l : list A) :
  List.filter p (List.filter r l) = List.filter r (List.filter p l).
Proof.
  induction l as [|x l IH]; [reflexivity|]. cbn [List.filter].
  destruct (r x) eqn:Er, (p x) eqn:Ep; cbn [List.filter];
    rewrite ?Er, ?Ep, IH; reflexivity.
Qed.

Ltac after_date_clauses w :=
  match goal with
  | |- context [match ?m w with _ => _ end] =>
      let e := fresh "e" in let query := fresh "query" in let w' := fresh "w" in
      destruct (m w) as [[e|query] w']; cbn; [reflexivity|]
  end.

Lemma amount_min_narrows (ev : env) (q : files_query) (w : world) (x : Q) :
  query_files ev (set_total_amount_min (Some x) q) w =
  narrow (eval_clause (TotalAmountGe x))
         (query_files ev (set_total_amount_min None q) w).
Proof.
  unfold query_files, build_query, set_total_amount_min. run_monad.
  after_date_clauses w.
  match goal with w1 : world |- _ => after_date_clauses w1 end.
  destruct (execute_fails ev); cbn; [reflexivity|].
  f_equal. f_equal. unfold if_not_None, if_truthy.
  destruct (q_total_amount_max q) as [mx|];
    destruct (q_similarity_status q) as [[|c s]|];
    rewrite !select_where_snoc; try reflexivity;
    rewrite ?(filter_swap (eval_clause (TotalAmountGe x))); reflexivity.
Qed.

Lemma amount_max_narrows (ev : env) (q : files_query) (w : world) (x : Q) :
  query_files ev (set_total_amount_max (Some x) q) w =
  narrow (eval_clause (TotalAmountLe x))
         (query_files ev (set_total_amount_max None q) w).
Proof.
  unfold query_files, build_query, set_total_amount_max. run_monad.
  after_date_clauses w.
  match goal with w1 : world |- _ => after_date_clauses w1 end.
  destruct (execute_fails ev); cbn; [reflexivity|].
  f_equal. f_equal. unfold if_not_None, if_truthy.
  destruct (q_total_amount_min q) as [mn|];
    destruct (q_similarity_status q) as [[|c s]|];
    rewrite !select_where_snoc; try reflexivity;
    rewrite ?(filter_swap (eval_clause (TotalAmountLe x))); reflexivity.
Qed.

(** C10: an empty string for [owner], [filename], [similarity_status],
    [receipt_date_start] or [receipt_date_end] gives the same list as
    leaving the parameter out, while an amount bound that is supplied, zero
    included, narrows the list to the rows that satisfy it. *)
Theorem C10_empty_string_ignored_zero_amount_applied :
  (forall ev q, get_files ev (set_owner (Some []) q) = get_files ev (set_owner None q)) /\
  (forall ev q, get_files ev (set_filename (Some []) q) = get_files ev (set_filename None q)) /\
  (forall ev q, get_files ev (set_similarity_status (Some []) q) =
                get_files ev (set_similarity_status None q)) /\
  (forall ev q, get_files ev (set_receipt_date_start (Some []) q) =
                get_files ev (set_receipt_date_start None q)) /\
  (forall ev q, get_files ev (set_receipt_date_end (Some []) q) =
                get_files ev (set_receipt_date_end None q)) /\
  (forall ev q w x,
     query_files ev (set_total_amount_min (Some x) q) w =
     narrow (eval_clause (TotalAmountGe x))
            (query_files ev (set_total_amount_min None q) w)) /\
  (forall ev q w x,
     query_files ev (set_total_amount_max (Some x) q) w =
     narrow (eval_clause (TotalAmountLe x))
            (query_files ev (set_total_amount_max None q) w)) /\
  get_files quiet_env (set_total_amount_min (Some 0%Q) no_filter) sample_world <>
  get_files quiet_env (set_total_amount_min None no_filter) sample_world /\
  get_files quiet_env (set_total_amount_max (Some 0%Q) no_filter) sample_world <>
  get_files quiet_env (set_total_amount_max None no_filter) sample_world.
Proof.
  repeat split; try reflexivity.
  - apply amount_min_narrows.
  - apply amount_max_narrows.
  - vm_compute. intros H. discriminate H.
  - vm_compute. intros H. discriminate H.
Qed.

(** *** Update *)

Lemma find_by_id_id (fid : Z) (rows : list UploadedFile) (file : UploadedFile) :
  find_by_id fid rows = Some file -> id file = fid.
Proof.
  unfold find_by_id, first. induction rows as [|x rows IH]; cbn; [discriminate|].
  destruct (Z.eqb_spec (id x) fid) as [E|E]; cbn; [|exact IH].
  intros H. now injection H as <-.
Qed.

Lemma find_by_id_replace_row (fid : Z) (rows : list UploadedFile) (file r : UploadedFile) :
  find_by_id fid rows = Some file -> id r = fid ->
  find_by_id fid (replace_row fid r rows) = Some r.
Proof.
  unfold find_by_id, first. intros H Hr.
  induction rows as [|x rows IH]; cbn in *; [discriminate|].
  destruct (Z.eqb_spec (id x) fid) as [E|E]; cbn in *.
  - apply Z.eqb_eq in Hr. now rewrite Hr.
  - apply Z.eqb_neq in E. rewrite E. now apply IH.
Qed.

(** C6: an update of an existing record sets [owner], [work_detail],
    [ocr_text], [receipt_date], [total_amount], [similarity_status],
    [similar_to_file_id] and [similarity_score] to what the form carries, a
    field left out becoming null, and a [receipt_date] that is absent or
    empty clears the stored one. *)
Theorem C6_update_replaces_wholesale
    (ev : env) (file_id : Z) (form : update_form) (w : world)
    (file : UploadedFile) (rd : option datetime) :
  execute_fails ev = false -> commit_fails ev = false ->
  find_by_id file_id (db w) = Some file ->
  new_receipt_date (f_receipt_date form) = Some rd ->
  exists w',
    update_file ev file_id form w = (inr (Resp 200 (UpdateOk file_id)), w') /\
    db w' = replace_row file_id (updated_row file form rd) (db w) /\
    find_by_id file_id (db w') = Some (updated_row file form rd) /\
    (opt_truthy (f_receipt_date form) = false ->
     receipt_date (updated_row file form rd) = None).
Proof.
  intros He Hc Hf Hrd. pose proof (find_by_id_id _ _ _ Hf) as Hid.
  assert (Hgoal :
    find_by_id file_id (replace_row file_id (updated_row file form rd) (db w)) =
    Some (updated_row file form rd)).
  { eapply find_by_id_replace_row; [exact Hf | exact Hid]. }
  subst file_id. unfold update_file. run_monad. rewrite He. cbn.
  unfold find_by_id in Hf. rewrite Hf. cbn.
  unfold new_receipt_date, if_truthy in Hrd. unfold if_truthy, parse_date.
  destruct (f_receipt_date form) as [[|c s]|]; cbn in *.
  - injection Hrd as <-. rewrite Hc. cbn. eexists. split; [reflexivity|].
    cbn. split; [reflexivity|]. split; [exact Hgoal | reflexivity].
  - destruct (parse (c :: s)) as [t|]; [|discriminate Hrd]. injection Hrd as <-.
    run_monad. rewrite Hc. cbn. eexists. split; [reflexivity|].
    cbn. split; [reflexivity|]. split; [exact Hgoal | discriminate].
  - injection Hrd as <-. rewrite Hc. cbn. eexists. split; [reflexivity|].
    cbn. split; [reflexivity|]. split; [exact Hgoal | reflexivity].
Qed.

(** *** Delete *)

Lemma first_filter_Some {A} (p : A -> bool) (l : list A) (x : A) :
  first (List.filter p l) = Some x -> In x l /\ p x = true.
Proof.
  unfold first. induction l as [|y l IH]; cbn; [discriminate|].
  destruct (p y) eqn:E; cbn.
  - intros H. injection H as <-. auto.
  - intros H. destruct (IH H). auto.
Qed.

Lemma first_filter_None {A} (p : A -> bool) (l : list A) :
  (forall x, In x l -> p x = false) -> first (List.filter p l) = None.
Proof.
  unfold first. induction l as [|y l IH]; cbn; [reflexivity|].
  intros H. rewrite (H y) by now left. apply IH. intros x Hx. apply H. now right.
Qed.

Lemma delete_match_iff (file_id : Z) (own : str) (f : UploadedFile) :
  delete_match file_id own f = true <-> id f = file_id /\ owner f = own.
Proof.
  unfold delete_match, str_eqb.
  rewrite andb_true_iff, Z.eqb_eq, bool_decide_eq_true. reflexivity.
Qed.

Lemma remove_row_length (fid : Z) (rows : list UploadedFile) (f : UploadedFile) :
  In f rows -> id f = fid -> S (length (remove_row fid rows)) = length rows.
Proof.
  intros Hin Hid. induction rows as [|x rows IH]; cbn; [destruct Hin|].
  destruct (Z.eqb_spec (id x) fid) as [E|E]; [reflexivity|].
  cbn. f_equal. apply IH. destruct Hin as [->|Hin]; [contradiction | exact Hin].
Qed.

Lemma remove_row_gone (fid : Z) (rows : list UploadedFile) :
  NoDup (map id rows) -> forall f, In f (remove_row fid rows) -> id f <> fid.
Proof.
  induction rows as [|x rows IH]; cbn; intros Hnd f Hf; [destruct Hf|].
  apply NoDup_cons in Hnd as [Hx Hnd].
  destruct (Z.eqb_spec (id x) fid) as [E|E].
  - intros Ef. apply Hx. rewrite E, <- Ef.
    apply list_elem_of_In, in_map, Hf.
  - destruct Hf as [<-|Hf]; [exact E | now apply IH].
Qed.

(** C1: a delete answers with a success only when a row with that id and
    that owner exists; when there is none (no such id, or another owner)
    the answer is one and the same error and the table and the disk are
    unchanged.  That error was raised with status 404 and reaches the
    caller as status 500. *)
Theorem C1_delete_no_match_reported_as_500
    (ev : env) (file_id : Z) (own : str) (w : world) :
  (forall resp w',
     delete_file ev file_id own w = (inr resp, w') ->
     exists f, In f (db w) /\ id f = file_id /\ owner f = own) /\
  ((forall f, In f (db w) -> ~ (id f = file_id /\ owner f = own)) ->
   exists e w',
     delete_file ev file_id own w =
       (inl (HTTPException 500 (Fmt "Failed to delete file: " e)), w') /\
     db w' = db w /\ disk w' = disk w /\
     (execute_fails ev = false ->
      e = HTTPException 404 (Lit "File not found or owner mismatch."))).
Proof.
  split.
  - intros resp w'. unfold delete_file. run_monad.
    destruct (execute_fails ev); cbn; [discriminate|].
    destruct (first _) as [file|] eqn:Hf; cbn; [|discriminate].
    intros _. apply first_filter_Some in Hf as [Hin Hm].
    apply delete_match_iff in Hm. now exists file.
  - intros Hnone. unfold delete_file. run_monad.
    destruct (execute_fails ev); cbn.
    { eexists _, _. split; [reflexivity|]. cbn. repeat split. discriminate. }
    rewrite first_filter_None.
    + cbn. eexists _, _. split; [reflexivity|]. cbn. repeat split.
    + intros f Hin. apply not_true_is_false. rewrite delete_match_iff.
      now apply Hnone.
Qed.

(** C8: when the row matches and its blob is not on disk, the delete still
    succeeds: a warning is logged, the row is removed, the disk is left as
    it was. *)
Theorem C8_delete_with_missing_blob
    (ev : env) (file_id : Z) (own : str) (w : world) (file : UploadedFile) :
  execute_fails ev = false -> commit_fails ev = false ->
  find_for_delete file_id own (db w) = Some file ->
  disk w !! os_path_join BACKUP_FOLDER (filename file) = None ->
  exists w',
    delete_file ev file_id own w = (inr (Resp 200 DeleteOk), w') /\
    db w' = remove_row file_id (db w) /\
    S (length (db w')) = length (db w) /\
    (NoDup (map id (db w)) -> forall f, In f (db w') -> id f <> file_id) /\
    disk w' = disk w /\
    log w' = log w ++
      [(WARNING, MsgDiskMissing (filename file) file_id
                   (os_path_join BACKUP_FOLDER (filename file)));
       (INFO, MsgDbDeleted file_id)].
Proof.
  intros He Hc Hf Hd. unfold find_for_delete in Hf.
  pose proof (first_filter_Some _ _ _ Hf) as [Hin Hm].
  apply delete_match_iff in Hm as [Hid _].
  unfold delete_file. run_monad. rewrite He. cbn. rewrite Hf. cbn.
  rewrite Hd. rewrite bool_decide_eq_false_2 by (intros [? ?]; discriminate).
  cbn. rewrite Hc. cbn. rewrite Hid. eexists. split; [reflexivity|]. cbn.
  split; [reflexivity|].
  split; [now apply remove_row_length with (f := file)|].
  split; [now apply remove_row_gone|].
  split; [reflexivity|]. now rewrite <- app_assoc.
Qed.

(** *** CSV export *)

Lemma csv_record_fields (f : UploadedFile) :
  map fst (csv_record f) = CSV_HEADERS /\
  map snd (csv_record f) = map snd (file_json f).
Proof. split; reflexivity. Qed.

(** C9: the export of an empty table is a 204 with an empty body; the
    export of a table with rows is a CSV whose first line holds the column
    headers and whose other lines are the rows of the table, one line per
    row and in the same order, with the fields of the JSON record. *)
Theorem C9_export_to_csv (ev : env) (w : world) :
  execute_fails ev = false ->
  (db w = [] -> export_to_csv ev w = (inr (Resp 204 EmptyBody), w)) /\
  (db w <> [] ->
   exists header lines name,
     export_to_csv ev w = (inr (Resp 200 (CsvBody (header :: lines) name)), w) /\
     header = map (fun h => CStr (py h)) CSV_HEADERS /\
     length lines = length (db w) /\
     lines = map (fun f => map snd (file_json f)) (db w)).
Proof.
  intros He. unfold export_to_csv. run_monad. rewrite He. cbn.
  destruct (db w) as [|f rows]; split; try easy.
  intros _. unfold to_csv, DataFrame_of.
  exists (map (fun h => CStr (py h)) CSV_HEADERS),
         (map (fun f => map snd (file_json f)) (f :: rows)).
  eexists. split; [|split; [reflexivity|split; [now rewrite length_map|reflexivity]]].
  cbn [columns values]. rewrite map_map. reflexivity.
Qed.

(** ** Further properties of the handlers *)

(** *** File names and paths *)

Lemma lstrip_clean_head (s : str) : clean_head (lstrip s).
Proof.
  induction s as [|c s IH]; cbn; [exact I|].
  destruct (isspace c) eqn:E; [exact IH | exact E].
Qed.

Lemma clean_head_lstrip (s : str) : clean_head s -> lstrip s = s.
Proof. destruct s as [|c s]; cbn; [reflexivity|]. now intros ->. Qed.

Lemma strip_middle (s : str) : exists p q, s = p ++ strip s ++ q.
Proof.
  unfold strip. destruct (lstrip_suffix s) as [p Hp].
  destruct (lstrip_suffix (rev (lstrip s))) as [q Hq].
  exists p, (rev q). rewrite <- rev_app_distr, <- Hq, rev_involutive. exact Hp.
Qed.

Lemma strip_fixed (s : str) : strip (strip s) = strip s.
Proof.
  assert (Hl : lstrip (strip s) = strip s).
  { apply clean_head_lstrip. unfold strip.
    destruct (lstrip_suffix (rev (lstrip s))) as [q Hq].
    pose proof (lstrip_clean_head s) as Hc.
    assert (Ht : lstrip s = rev (lstrip (rev (lstrip s))) ++ rev q).
    { rewrite <- rev_app_distr, <- Hq. now rewrite rev_involutive. }
    destruct (rev (lstrip (rev (lstrip s)))) as [|c u]; [exact I|].
    rewrite Ht in Hc. exact Hc. }
  unfold strip at 1. rewrite Hl. unfold strip at 1. rewrite rev_involutive.
  rewrite (clean_head_lstrip (lstrip _)) by apply lstrip_clean_head.
  reflexivity.
Qed.

Lemma filter_keeps_all {A} (p : A -> bool) (l : list A) :
  Forall (fun x => p x = true) l -> List.filter p l = l.
Proof.
  induction 1 as [|x l Hx _ IH]; cbn; [reflexivity|]. now rewrite Hx, IH.
Qed.

Lemma filter_sublist {A} (p : A -> bool) (l : list A) : sublist (List.filter p l) l.
Proof.
  induction l as [|x l IH]; cbn; [constructor|].
  destruct (p x); now constructor.
Qed.

Lemma keep_char_cases (c : char) :
  keep_char c = true ->
  isalnum c = true \/ c = c_dot \/ c = c_underscore \/ c = c_dash.
Proof.
  unfold keep_char. rewrite !orb_true_iff, !N.eqb_eq.
  intros [[[H|H]|H]|H]; auto.
Qed.

(** A sanitized name is the original name with characters left out, never
    changed, added or reordered, and each of its characters is alphanumeric
    or one of [. _ -]. *)
Theorem sanitize_sublist_of_allowed (name : str) :
  sublist (sanitize name) name /\
  Forall (fun c => isalnum c = true \/ c = c_dot \/ c = c_underscore \/ c = c_dash)
         (sanitize name).
Proof.
  split.
  - unfold sanitize. destruct (strip_middle (List.filter keep_char name)) as (p & q & E).
    transitivity (List.filter keep_char name); [|apply filter_sublist].
    rewrite E at 2. apply sublist_inserts_l, sublist_inserts_r. reflexivity.
  - eapply Forall_impl; [apply sanitize_only_allowed|].
    intros c Hc. now apply keep_char_cases.
Qed.

(** Sanitizing a sanitized name changes nothing. *)
Theorem sanitize_idempotent (name : str) : sanitize (sanitize name) = sanitize name.
Proof.
  unfold sanitize at 1. rewrite filter_keeps_all by apply sanitize_only_allowed.
  unfold sanitize. apply strip_fixed.
Qed.

Lemma rfind_from_spec (c : char) (s : str) (i : Z) :
  0 <= i ->
  (rfind_from c s i = -1 /\ ~ In c s) \/
  (i <= rfind_from c s i < i + Z.of_nat (length s) /\
   s !! Z.to_nat (rfind_from c s i - i) = Some c /\
   forall j, (Z.to_nat (rfind_from c s i - i) < j)%nat -> s !! j <> Some c).
Proof.
  revert i. induction s as [|x s IH]; intros i Hi.
  { left. split; [reflexivity | intros []]. }
  cbn [rfind_from]. cbv zeta.
  destruct (IH (i + 1)) as [[Hr Hn]|(Hr & Hl & Hlast)]; [lia| |].
  - rewrite Hr. cbn [Z.leb Z.compare].
    destruct (N.eqb_spec x c) as [->|Hx].
    + right. split; [cbn [length]; lia|]. rewrite Z.sub_diag. split; [reflexivity|].
      intros [|j] Hj; [lia|]. cbn. intros E. apply Hn.
      apply list_elem_of_In, list_elem_of_lookup. eauto.
    + left. split; [reflexivity|]. intros [E|E]; [now apply Hx | now apply Hn].
  - replace (0 <=? rfind_from c s (i + 1)) with true by (symmetry; apply Z.leb_le; lia).
    right. split; [cbn [length]; lia|].
    replace (Z.to_nat (rfind_from c s (i + 1) - i))
      with (S (Z.to_nat (rfind_from c s (i + 1) - (i + 1)))) by lia.
    split; [exact Hl|].
    intros [|j] Hj; [lia|]. cbn. apply Hlast. lia.
Qed.

Lemma In_drop_lookup {A} (x : A) (n : nat) (l : list A) :
  In x (drop n l) -> exists j, (n <= j)%nat /\ l !! j = Some x.
Proof.
  intros H. apply list_elem_of_In, list_elem_of_lookup in H as [k Hk].
  rewrite lookup_drop in Hk. exists (n + k)%nat. split; [lia | exact Hk].
Qed.

(** [splitext] cuts a path in two parts that join back to the path; the
    extension is empty or starts with the only dot it has, and holds no
    path separator. *)
Theorem splitext_root_and_extension (p : str) :
  fst (splitext p) ++ snd (splitext p) = p /\
  (snd (splitext p) = [] \/
   exists rest, snd (splitext p) = c_dot :: rest /\
                ~ In c_dot rest /\ ~ In c_slash rest).
Proof.
  unfold splitext.
  destruct ((rfind c_slash p <? rfind c_dot p) && _) eqn:E; cbn [fst snd].
  2: { split; [apply app_nil_r | now left]. }
  split; [apply take_drop|]. right.
  apply andb_true_iff in E as [E _]. apply Z.ltb_lt in E. unfold rfind in *.
  destruct (rfind_from_spec c_dot p 0) as [[Hd _]|(Hd & Hl & Hlast)]; [lia| |].
  { destruct (rfind_from_spec c_slash p 0) as [[Hs _]|(Hs & _)]; lia. }
  rewrite Z.sub_0_r in Hl, Hlast.
  exists (drop (S (Z.to_nat (rfind_from c_dot p 0))) p).
  split; [now apply drop_S|]. split.
  - intros H. apply In_drop_lookup in H as (j & Hj & Hp). apply (Hlast j); [lia | exact Hp].
  - intros H. apply In_drop_lookup in H as (j & Hj & Hp).
    destruct (rfind_from_spec c_slash p 0) as [[_ Hn]|(Hs & _ & Hslast)]; [lia| |].
    + apply Hn, list_elem_of_In, list_elem_of_lookup. eauto.
    + rewrite Z.sub_0_r in Hslast. apply (Hslast j); [lia | exact Hp].
Qed.

Lemma os_path_join_relative (a b : str) :
  startswith_char c_slash b = false ->
  exists sep, (sep = [] \/ sep = [c_slash]) /\ os_path_join a b = a ++ sep ++ b.
Proof.
  intros Hb. unfold os_path_join. rewrite Hb.
  destruct (negb (str_truthy a) || endswith_char c_slash a).
  - exists []. auto.
  - exists [c_slash]. auto.
Qed.

Lemma sanitize_no_slash (name : str) :
  isalnum c_slash = false -> ~ In c_slash (sanitize name).
Proof.
  intros Ha Hin. pose proof (sanitize_only_allowed name) as H.
  rewrite List.Forall_forall in H. specialize (H _ Hin).
  unfold keep_char in H. rewrite Ha in H. discriminate H.
Qed.

(** *** Upload *)

(** A stored upload keeps the sanitized name, never a synthesized one: the
    name is not empty, holds no path separator, and the blob is written
    directly in the backup folder under it. *)
Theorem upload_stores_under_sanitized_name
    (ev : env) (rq : upload_request) (w w' : world) (resp : response) :
  lower [] = [] -> isspace c_dot = false -> isalnum c_slash = false ->
  upload_file ev rq w = (inr resp, w') ->
  exists name sep,
    up_filename rq = Some name /\
    sanitize name <> [] /\ ~ In c_slash (sanitize name) /\
    (sep = [] \/ sep = [c_slash]) /\
    db w' = db w ++ [new_row (next_id w) (sanitize name) (up_owner rq)
                       (up_work_detail rq) (up_client rq) (now ev)] /\
    disk w' = <[BACKUP_FOLDER ++ sep ++ sanitize name := up_bytes rq]> (disk w).
Proof.
  intros Hlow Hdot Hslash H.
  apply upload_file_inr in H as (name & (Hn & _ & Hext) & _ & _ & _ & H).
  cbv zeta in H. destruct H as (_ & Hdb & _ & Hdisk).
  pose proof (accepted_name_sanitizes_nonempty name Hlow Hdot Hext) as Hne.
  pose proof (sanitize_no_slash name Hslash) as Hns.
  assert (Hst : spec_stored_filename (now ev) name = sanitize name).
  { rewrite <- stored_name_as_specified. now destruct (sanitize name). }
  rewrite Hst in Hdb, Hdisk.
  destruct (os_path_join_relative BACKUP_FOLDER (sanitize name)) as (sep & Hsep & Hj).
  { destruct (sanitize name) as [|c s0] eqn:Es; [reflexivity|]. cbn.
    destruct (N.eqb_spec c c_slash) as [->|]; [|reflexivity].
    exfalso. apply Hns. now left. }
  rewrite Hj in Hdisk. exists name, sep. auto 10.
Qed.

Lemma upload_file_inl (ev : env) (rq : upload_request) (w w' : world) (e : exn) :
  upload_file ev rq w = (inl e, w') ->
  (exists d, e = HTTPException 500 d) /\ db w' = db w /\ next_id w' = next_id w.
Proof.
  unfold upload_file. run_monad.
  destruct (up_filename rq) as [[|c name]|]; cbn;
    try (intros H; injection H as <- <-; cbn; eauto).
  destruct (str_in _ ALLOWED_EXTENSIONS); cbn;
    try (intros H; injection H as <- <-; cbn; eauto).
  destruct (makedirs_fails ev); cbn;
    try (intros H; injection H as <- <-; cbn; eauto).
  destruct (blob_write ev); cbn;
    try (intros H; injection H as <- <-; cbn; eauto).
  destruct (commit_fails ev); cbn; [|discriminate].
  intros H; injection H as <- <-; cbn; eauto.
Qed.

Lemma filter_none {A} (p : A -> bool) (l : list A) :
  (forall x, In x l -> p x = false) -> List.filter p l = [].
Proof.
  induction l as [|y l IH]; cbn; [reflexivity|]. intros H.
  rewrite (H y) by now left. apply IH. intros x Hx. apply H. now right.
Qed.

(** An upload that succeeds can be read back: the details of the id it
    returns are the submitted owner, work detail and client address, the
    stored name, the server time and the defaults of a new record. *)
Theorem upload_then_details
    (ev ev' : env) (rq : upload_request) (w w' : world) (fid : Z) :
  well_keyed w -> execute_fails ev' = false ->
  upload_file ev rq w = (inr (Resp 200 (UploadOk fid)), w') ->
  exists name,
    up_filename rq = Some name /\
    get_file_details ev' fid w' =
      (inr [("id", CInt fid);
            ("filename", CStr (spec_stored_filename (now ev) name));
            ("owner", CStr (up_owner rq));
            ("work_detail", opt_cell CStr (up_work_detail rq));
            ("uploaded_at", CIso (now ev));
            ("client_ip", opt_cell CStr (up_client rq));
            ("ocr_text", CNone);
            ("receipt_date", CNone);
            ("total_amount", CNone);
            ("similarity_status", CStr (py "No"));
            ("similar_to_file_id", CNone);
            ("similarity_score", CNone)]%string, []).
Proof.
  intros [_ Hlt] He' H.
  apply upload_file_inr in H as (name & (Hn & _) & _ & _ & _ & H).
  cbv zeta in H. destruct H as (Hr & Hdb & _ & _).
  injection Hr as ->. exists name. split; [exact Hn|].
  unfold get_file_details, db_execute. rewrite He'. cbn [fst].
  rewrite Hdb, List.filter_app.
  rewrite (filter_none _ (db w)).
  2: { intros f Hf. apply Z.eqb_neq. specialize (Hlt f Hf). lia. }
  cbn. rewrite Z.eqb_refl. reflexivity.
Qed.

(** An upload that succeeds can be downloaded: the download of the id it
    returns points at a file on disk that holds the uploaded bytes. *)
Theorem upload_then_download
    (ev ev' : env) (rq : upload_request) (w w' : world) (fid : Z) :
  well_keyed w -> execute_fails ev' = false ->
  upload_file ev rq w = (inr (Resp 200 (UploadOk fid)), w') ->
  exists fr,
    download_file ev' fid w' = (inr fr, []) /\
    disk w' !! fr_path fr = Some (up_bytes rq) /\
    fr_path fr = os_path_join BACKUP_FOLDER (fr_filename fr) /\
    fr_content_disposition fr = py "attachment; filename=" ++ quote (fr_filename fr).
Proof.
  intros [_ Hlt] He' H.
  apply upload_file_inr in H as (name & _ & _ & _ & _ & H).
  cbv zeta in H. destruct H as (Hr & Hdb & _ & Hdisk).
  injection Hr as ->.
  unfold download_file, db_execute. rewrite He'. cbn [fst].
  rewrite Hdb, List.filter_app.
  rewrite (filter_none _ (db w)).
  2: { intros f Hf. apply Z.eqb_neq. specialize (Hlt f Hf). lia. }
  cbn [app List.filter new_row id]. rewrite Z.eqb_refl. unfold first.
  cbn [head filename]. cbv zeta. rewrite Hdisk, lookup_insert_eq.
  rewrite bool_decide_eq_true_2 by eauto. cbn [negb report_failure].
  eexists. split; [reflexivity|]. cbn. rewrite lookup_insert_eq. auto.
Qed.

(** *** Keys *)

Lemma replace_row_ids (fid : Z) (r : UploadedFile) (rows : list UploadedFile) :
  id r = fid -> map id (replace_row fid r rows) = map id rows.
Proof.
  intros Hr. induction rows as [|x rows IH]; cbn; [reflexivity|].
  destruct (Z.eqb_spec (id x) fid) as [E|E]; cbn; [now rewrite Hr, E | now rewrite IH].
Qed.

Lemma remove_row_sublist (fid : Z) (rows : list UploadedFile) :
  sublist (remove_row fid rows) rows.
Proof.
  induction rows as [|x rows IH]; cbn; [constructor|].
  destruct (id x =? fid); now constructor.
Qed.

Lemma map_sublist {A B} (f : A -> B) (l k : list A) :
  sublist l k -> sublist (map f l) (map f k).
Proof. induction 1; cbn; now constructor. Qed.

Lemma ids_below_map (rows : list UploadedFile) (n : Z) :
  (forall f, In f rows -> id f < n) <-> Forall (fun k => k < n) (map id rows).
Proof.
  rewrite List.Forall_forall. split.
  - intros H k Hk. apply in_map_iff in Hk as (f & <- & Hf). now apply H.
  - intros H f Hf. apply H. now apply in_map.
Qed.

Lemma update_file_outcome
    (ev : env) (file_id : Z) (form : update_form) (w w' : world) (r : exn + response) :
  update_file ev file_id form w = (r, w') ->
  next_id w' = next_id w /\ disk w' = disk w /\
  ((exists e, r = inl (HTTPException 500 (Fmt "Failed to update file: " e)) /\
              db w' = db w) \/
   (exists file rd,
      find_by_id file_id (db w) = Some file /\
      new_receipt_date (f_receipt_date form) = Some rd /\
      r = inr (Resp 200 (UpdateOk file_id)) /\
      db w' = replace_row file_id (updated_row file form rd) (db w))).
Proof.
  unfold update_file. run_monad.
  destruct (execute_fails ev); cbn.
  { intros H; injection H as <- <-. cbn. eauto 10. }
  destruct (first _) as [file|] eqn:Hf; cbn.
  2: { intros H; injection H as <- <-. cbn. eauto 10. }
  pose proof (find_by_id_id _ _ _ Hf) as Hid. subst file_id.
  unfold if_truthy, parse_date, new_receipt_date.
  destruct (f_receipt_date form) as [[|c s]|]; cbn.
  - destruct (commit_fails ev); cbn; intros H; injection H as <- <-; cbn;
      [eauto 10|]. split; [reflexivity|]. split; [reflexivity|]. right.
    exists file, None. auto.
  - destruct (parse (c :: s)) as [t|]; run_monad.
    + destruct (commit_fails ev); cbn; intros H; injection H as <- <-; cbn;
        [eauto 10|]. split; [reflexivity|]. split; [reflexivity|]. right.
      exists file, (Some (midnight (dt_date t))). auto.
    + intros H; injection H as <- <-. cbn. eauto 10.
  - destruct (commit_fails ev); cbn; intros H; injection H as <- <-; cbn;
      [eauto 10|]. split; [reflexivity|]. split; [reflexivity|]. right.
    exists file, None. auto.
Qed.

Lemma delete_file_outcome
    (ev : env) (file_id : Z) (own : str) (w w' : world) (r : exn + response) :
  delete_file ev file_id own w = (r, w') ->
  next_id w' = next_id w /\
  ((exists e, r = inl (HTTPException 500 (Fmt "Failed to delete file: " e)) /\
              db w' = db w /\ disk w' = disk w) \/
   (exists file,
      find_for_delete file_id own (db w) = Some file /\
      disk w' = delete (os_path_join BACKUP_FOLDER (filename file)) (disk w) /\
      ((r = inl (HTTPException 500 (Fmt "Failed to delete file: " SQLAlchemyError)) /\
        commit_fails ev = true /\ db w' = db w) \/
       (r = inr (Resp 200 DeleteOk) /\ db w' = remove_row file_id (db w))))).
Proof.
  unfold delete_file. run_monad.
  destruct (execute_fails ev); cbn.
  { intros H; injection H as <- <-. cbn. eauto 10. }
  destruct (first _) as [file|] eqn:Hf; cbn.
  2: { intros H; injection H as <- <-. cbn. eauto 10. }
  pose proof (first_filter_Some _ _ _ Hf) as [_ Hm].
  apply delete_match_iff in Hm as [Hid _]. subst file_id.
  destruct (bool_decide_reflect (is_Some (disk w !! os_path_join BACKUP_FOLDER (filename file))))
    as [Hd|Hd]; cbn.
  - destruct (remove_fails ev); cbn.
    { intros H; injection H as <- <-. cbn. eauto 10. }
    destruct (commit_fails ev) eqn:Hc; cbn; intros H; injection H as <- <-; cbn;
      (split; [reflexivity|]); right; exists file; auto 10.
  - assert (Hdel : disk w = delete (os_path_join BACKUP_FOLDER (filename file)) (disk w)).
    { symmetry. apply delete_id. destruct (disk w !! _) eqn:E; [|reflexivity].
      exfalso. apply Hd. eauto. }
    destruct (commit_fails ev) eqn:Hc; cbn; intros H; injection H as <- <-; cbn;
      (split; [reflexivity|]); right; exists file; auto 10.
Qed.

(** The handlers keep the primary key sound: after an upload, an update or
    a delete, whatever its outcome, ids are still pairwise different and
    below the next id the database hands out. *)
Theorem handlers_keep_keys_unique (w : world) :
  well_keyed w ->
  (forall ev rq r w', upload_file ev rq w = (r, w') -> well_keyed w') /\
  (forall ev fid form r w', update_file ev fid form w = (r, w') -> well_keyed w') /\
  (forall ev fid own r w', delete_file ev fid own w = (r, w') -> well_keyed w').
Proof.
  intros [Hnd Hlt]. unfold well_keyed. split; [|split].
  - intros ev rq [e|resp] w' H.
    + apply upload_file_inl in H as (_ & -> & ->). auto.
    + apply upload_file_inr in H as (name & _ & _ & _ & _ & H).
      cbv zeta in H. destruct H as (_ & -> & -> & _). split.
      * rewrite map_app. apply NoDup_app. split; [exact Hnd|]. split.
        -- intros k Hk Hk'. apply list_elem_of_In in Hk, Hk'.
           apply in_map_iff in Hk as (f & <- & Hf). specialize (Hlt f Hf).
           cbn in Hk'. destruct Hk' as [E|[]]. lia.
        -- cbn. apply NoDup_singleton.
      * intros f Hf. apply in_app_iff in Hf as [Hf|[<-|[]]]; [|cbn; lia].
        specialize (Hlt f Hf). lia.
  - intros ev fid form r w' H.
    apply update_file_outcome in H as (-> & _ & [(e & _ & ->)|(file & rd & Hf & _ & _ & ->)]);
      [auto|].
    assert (Hids : map id (replace_row fid (updated_row file form rd) (db w)) = map id (db w)).
    { apply replace_row_ids. cbn. now apply find_by_id_id in Hf. }
    split; [now rewrite Hids|]. apply ids_below_map. rewrite Hids.
    now apply ids_below_map.
  - intros ev fid own r w' H.
    apply delete_file_outcome in H
      as (-> & [(e & _ & -> & _)|(file & _ & _ & [(_ & _ & ->)|(_ & ->)])]); auto.
    pose proof (remove_row_sublist fid (db w)) as Hs. split.
    + apply (sublist_NoDup _ (map id (db w)) Hnd (map_sublist id _ _ Hs)).
    + intros f Hf. apply Hlt. apply list_elem_of_In.
      eapply elem_of_sublist; [|exact Hs]. now apply list_elem_of_In.
Qed.

(** *** Update *)

Lemma find_by_id_replace_other (fid other : Z) (r : UploadedFile) (rows : list UploadedFile) :
  id r = fid -> other <> fid ->
  find_by_id other (replace_row fid r rows) = find_by_id other rows.
Proof.
  intros Hr Ho. unfold find_by_id. f_equal.
  induction rows as [|x rows IH]; cbn; [reflexivity|].
  destruct (Z.eqb_spec (id x) fid) as [E|E]; cbn.
  - rewrite Hr, E. now destruct (Z.eqb_spec fid other) as [->|].
  - now rewrite IH.
Qed.

Lemma replace_row_length (fid : Z) (r : UploadedFile) (rows : list UploadedFile) :
  length (replace_row fid r rows) = length rows.
Proof.
  induction rows as [|x rows IH]; cbn; [reflexivity|].
  destruct (id x =? fid); cbn; [reflexivity | now rewrite IH].
Qed.

(** An update never touches the disk or the key counter.  An update that
    stops at or before its commit, because the query fails, no row has the
    id, the date does not parse or the commit fails, answers 500 and leaves
    the table as it was. *)
Theorem update_stopped_by_commit_changes_nothing
    (ev : env) (file_id : Z) (form : update_form) (w w' : world) (r : exn + response) :
  update_file ev file_id form w = (r, w') ->
  disk w' = disk w /\ next_id w' = next_id w /\
  (execute_fails ev = true \/ find_by_id file_id (db w) = None \/
   new_receipt_date (f_receipt_date form) = None \/ commit_fails ev = true ->
   (exists e, r = inl (HTTPException 500 (Fmt "Failed to update file: " e))) /\
   db w' = db w).
Proof.
  unfold update_file, find_by_id, new_receipt_date. run_monad.
  assert (Hstop : forall (e : exn) (w0 : world) (P : Prop),
            db w0 = db w ->
            P -> (exists e0, @inl exn response
                               (HTTPException 500 (Fmt "Failed to update file: " e)) =
                             inl (HTTPException 500 (Fmt "Failed to update file: " e0))) /\
                 db w0 = db w).
  { intros e w0 P Hw _. split; [now exists e | exact Hw]. }
  destruct (execute_fails ev); cbn.
  { intros H; injection H as <- <-. cbn.
    split; [reflexivity|]. split; [reflexivity|]. now apply Hstop. }
  destruct (first _) as [file|]; cbn.
  2: { intros H; injection H as <- <-. cbn.
       split; [reflexivity|]. split; [reflexivity|]. now apply Hstop. }
  unfold if_truthy, parse_date.
  destruct (f_receipt_date form) as [[|c s]|]; cbn;
    try (destruct (parse (c :: s)) as [t|]; run_monad);
    try (destruct (commit_fails ev); cbn);
    intros H; injection H as <- <-; cbn;
    (split; [reflexivity|]); (split; [reflexivity|]);
    first [ now apply Hstop
          | intros [Hf|[Hf|[Hf|Hf]]]; discriminate Hf ].
Qed.

(** An update changes one row only: every other id still finds the row it
    found before, and the table keeps its number of rows. *)
Theorem update_leaves_other_rows
    (ev : env) (file_id other : Z) (form : update_form) (w w' : world)
    (r : exn + response) :
  other <> file_id ->
  update_file ev file_id form w = (r, w') ->
  find_by_id other (db w') = find_by_id other (db w) /\
  length (db w') = length (db w).
Proof.
  intros Ho H.
  apply update_file_outcome in H as (_ & _ & [(e & _ & ->)|(file & rd & Hf & _ & _ & ->)]);
    [auto|].
  split; [|apply replace_row_length].
  apply find_by_id_replace_other; [|exact Ho].
  cbn. now apply find_by_id_id in Hf.
Qed.

(** After an update that succeeds, the details of the record show the
    form's values and the untouched columns of the old row. *)
Theorem update_then_details
    (ev ev' : env) (file_id : Z) (form : update_form) (w w' : world) (resp : response) :
  execute_fails ev' = false ->
  update_file ev file_id form w = (inr resp, w') ->
  exists file rd,
    find_by_id file_id (db w) = Some file /\
    new_receipt_date (f_receipt_date form) = Some rd /\
    get_file_details ev' file_id w' =
      (inr [("id", CInt file_id);
            ("filename", CStr (filename file));
            ("owner", CStr (f_owner form));
            ("work_detail", opt_cell CStr (f_work_detail form));
            ("uploaded_at", CIso (uploaded_at file));
            ("client_ip", opt_cell CStr (client_ip file));
            ("ocr_text", opt_cell CStr (f_ocr_text form));
            ("receipt_date", opt_cell CIso rd);
            ("total_amount", opt_cell CFloat (f_total_amount form));
            ("similarity_status", opt_cell CStr (f_similarity_status form));
            ("similar_to_file_id", opt_cell CInt (f_similar_to_file_id form));
            ("similarity_score", opt_cell CFloat (f_similarity_score form))]%string, []).
Proof.
  intros He' H.
  apply update_file_outcome in H
    as (_ & _ & [(e & Hr & _)|(file & rd & Hf & Hrd & _ & Hdb)]); [discriminate Hr|].
  exists file, rd. split; [exact Hf|]. split; [exact Hrd|].
  pose proof (find_by_id_id _ _ _ Hf) as Hid.
  assert (Hnew : find_by_id file_id (db w') = Some (updated_row file form rd)).
  { rewrite Hdb. eapply find_by_id_replace_row; [exact Hf | exact Hid]. }
  unfold get_file_details, db_execute. rewrite He'. cbn [fst].
  unfold find_by_id in Hnew. rewrite Hnew. cbn.
  unfold file_details, updated_row. cbn. now rewrite Hid.
Qed.

(** *** Delete *)

Lemma In_remove_row_other (fid : Z) (rows : list UploadedFile) (f : UploadedFile) :
  id f <> fid -> (In f (remove_row fid rows) <-> In f rows).
Proof.
  intros Hf. induction rows as [|x rows IH]; cbn; [reflexivity|].
  destruct (Z.eqb_spec (id x) fid) as [E|E]; cbn.
  - split; [now right|]. intros [->|H]; [contradiction | exact H].
  - now rewrite IH.
Qed.

(** A delete of a row whose blob is on disk, with nothing failing, answers
    200, removes the blob and the row, and leaves every other file on disk
    alone. *)
Theorem delete_removes_blob_and_row
    (ev : env) (file_id : Z) (own : str) (w : world) (file : UploadedFile) :
  no_faults ev ->
  find_for_delete file_id own (db w) = Some file ->
  is_Some (disk w !! os_path_join BACKUP_FOLDER (filename file)) ->
  exists w',
    delete_file ev file_id own w = (inr (Resp 200 DeleteOk), w') /\
    db w' = remove_row file_id (db w) /\
    disk w' !! os_path_join BACKUP_FOLDER (filename file) = None /\
    (forall path, path <> os_path_join BACKUP_FOLDER (filename file) ->
                  disk w' !! path = disk w !! path) /\
    log w' = log w ++ [(INFO, MsgDiskDeleted (filename file));
                       (INFO, MsgDbDeleted file_id)].
Proof.
  intros (_ & _ & Hrm & He & Hc) Hf Hd. unfold find_for_delete in Hf.
  pose proof (first_filter_Some _ _ _ Hf) as [_ Hm].
  apply delete_match_iff in Hm as [Hid _].
  unfold delete_file. run_monad. rewrite He. cbn. rewrite Hf. cbn.
  rewrite bool_decide_eq_true_2 by exact Hd. rewrite Hrm. cbn. rewrite Hc. cbn.
  rewrite Hid. eexists. split; [reflexivity|]. cbn.
  split; [reflexivity|]. split; [apply lookup_delete_eq|].
  split; [intros path Hp; now apply lookup_delete_ne|].
  now rewrite <- app_assoc.
Qed.

(** When the blob is on disk and [os.remove] fails, the delete fails and
    changes nothing; when the blob was removed and the commit then fails,
    the delete fails, the row stays in the table and its blob is gone. *)
Theorem delete_failures_with_blob
    (ev : env) (file_id : Z) (own : str) (w : world) (file : UploadedFile) :
  execute_fails ev = false ->
  find_for_delete file_id own (db w) = Some file ->
  is_Some (disk w !! os_path_join BACKUP_FOLDER (filename file)) ->
  (remove_fails ev = true ->
   exists w',
     delete_file ev file_id own w =
       (inl (HTTPException 500 (Fmt "Failed to delete file: " OSError)), w') /\
     db w' = db w /\ disk w' = disk w) /\
  (remove_fails ev = false -> commit_fails ev = true ->
   exists w',
     delete_file ev file_id own w =
       (inl (HTTPException 500 (Fmt "Failed to delete file: " SQLAlchemyError)), w') /\
     db w' = db w /\ In file (db w') /\
     disk w' !! os_path_join BACKUP_FOLDER (filename file) = None).
Proof.
  intros He Hf Hd. unfold find_for_delete in Hf.
  pose proof (first_filter_Some _ _ _ Hf) as [Hin _].
  unfold delete_file. run_monad. rewrite He. cbn. rewrite Hf. cbn.
  rewrite bool_decide_eq_true_2 by exact Hd. split.
  - intros ->. cbn. eexists. split; [reflexivity|]. cbn. auto.
  - intros -> ->. cbn. eexists. split; [reflexivity|]. cbn.
    split; [reflexivity|]. split; [exact Hin | apply lookup_delete_eq].
Qed.

(** A delete, whatever its outcome, keeps every row that has another id and
    adds none. *)
Theorem delete_leaves_other_rows
    (ev : env) (file_id : Z) (own : str) (w w' : world) (r : exn + response)
    (f : UploadedFile) :
  id f <> file_id ->
  delete_file ev file_id own w = (r, w') ->
  (In f (db w') <-> In f (db w)).
Proof.
  intros Hf H.
  apply delete_file_outcome in H
    as (_ & [(e & _ & -> & _)|(file & _ & _ & [(_ & _ & ->)|(_ & ->)])]);
    try reflexivity.
  now apply In_remove_row_other.
Qed.

(** Deleting twice: once a delete has succeeded, the same delete finds no
    row any more and fails, leaving the table as the first delete left
    it. *)
Theorem delete_twice
    (ev ev' : env) (file_id : Z) (own : str) (w w' : world) (resp : response) :
  NoDup (map id (db w)) -> execute_fails ev' = false ->
  delete_file ev file_id own w = (inr resp, w') ->
  exists w'',
    delete_file ev' file_id own w' =
      (inl (HTTPException 500
              (Fmt "Failed to delete file: "
                 (HTTPException 404 (Lit "File not found or owner mismatch.")))),
       w'') /\
    db w'' = db w'.
Proof.
  intros Hnd He' H.
  apply delete_file_outcome in H
    as (_ & [(e & Hr & _)|(file & _ & _ & [(Hr & _)|(_ & Hdb)])]);
    try discriminate Hr.
  unfold delete_file. run_monad. rewrite He'. cbn.
  rewrite first_filter_None.
  - cbn. eexists. split; [reflexivity|]. reflexivity.
  - intros f Hin. rewrite Hdb in Hin.
    apply not_true_is_false. rewrite delete_match_iff. intros [Hid _].
    now apply (remove_row_gone file_id (db w) Hnd f Hin).
Qed.

(** An upload followed by the delete of the id it returned, by the owner
    who uploaded, gives back the table as it was before the upload. *)
Theorem upload_then_delete
    (ev ev' : env) (rq : upload_request) (w w' : world) (fid : Z) :
  well_keyed w -> no_faults ev' ->
  upload_file ev rq w = (inr (Resp 200 (UploadOk fid)), w') ->
  exists w'',
    delete_file ev' fid (up_owner rq) w' = (inr (Resp 200 DeleteOk), w'') /\
    db w'' = db w /\
    (forall path, disk w'' !! path = None \/ disk w'' !! path = disk w !! path).
Proof.
  intros [_ Hlt] (_ & _ & Hrm & He & Hc) H.
  apply upload_file_inr in H as (name & _ & _ & _ & _ & H).
  cbv zeta in H. destruct H as (Hr & Hdb & _ & Hdisk). injection Hr as ->.
  set (stored := spec_stored_filename (now ev) name) in *.
  set (row := new_row (next_id w) stored (up_owner rq) (up_work_detail rq)
                (up_client rq) (now ev)) in *.
  assert (Hnone : forall p : UploadedFile -> bool,
            (forall f, p f = true -> id f = next_id w) ->
            List.filter p (db w) = []).
  { intros p Hp. apply filter_none. intros f Hf. apply not_true_is_false.
    intros E. apply Hp in E. specialize (Hlt f Hf). lia. }
  assert (Hrem : remove_row (next_id w) (db w ++ [row]) = db w).
  { clear Hdb Hnone. induction (db w) as [|x rows IH]; cbn.
    - now rewrite Z.eqb_refl.
    - destruct (Z.eqb_spec (id x) (next_id w)) as [E|E].
      + specialize (Hlt x (or_introl eq_refl)). lia.
      + f_equal. apply IH. intros f Hf. apply Hlt. now right. }
  unfold delete_file. run_monad. rewrite He. cbn. rewrite Hdb, List.filter_app.
  rewrite Hnone by (intros f Hf; now apply delete_match_iff in Hf).
  cbn [app List.filter]. unfold delete_match at 1. cbn [id owner row new_row].
  rewrite Z.eqb_refl. unfold str_eqb. rewrite bool_decide_eq_true_2 by reflexivity.
  unfold first. cbn [andb head filename row new_row]. cbn.
  rewrite Hdisk, lookup_insert_eq.
  rewrite bool_decide_eq_true_2 by eauto. rewrite Hrm. cbn. rewrite Hc. cbn.
  eexists. split; [reflexivity|]. cbn. split; [exact Hrem|].
  intros path. destruct (decide (path = os_path_join BACKUP_FOLDER stored)) as [->|Hp].
  - left. apply lookup_delete_eq.
  - right. rewrite Hdisk, lookup_delete_ne, lookup_insert_ne by congruence.
    reflexivity.
Qed.

(** *** Filtered list *)

Lemma filter_true {A} (l : list A) : List.filter (fun _ => true) l = l.
Proof. induction l as [|x l IH]; cbn; [reflexivity | now rewrite IH]. Qed.

Lemma filter_filter_and {A} (p r : A -> bool) (l : list A) :
  List.filter p (List.filter r l) = List.filter (fun x => r x && p x) l.
Proof.
  induction l as [|x l IH]; cbn; [reflexivity|].
  destruct (r x) eqn:Er; cbn; [|exact IH].
  destruct (p x); cbn; now rewrite IH.
Qed.

Lemma select_where_truthy (o : option str) (mk : str -> clause) (a : list clause)
    (rows : list UploadedFile) :
  select_where (if_truthy o (fun s => a ++ [mk s]) a) rows =
  List.filter (fun f => if_truthy o (fun s => eval_clause (mk s) f) true)
              (select_where a rows).
Proof.
  destruct o as [[|c s]|]; unfold if_truthy;
    [now rewrite filter_true | apply select_where_snoc | now rewrite filter_true].
Qed.

Lemma select_where_not_None {B} (o : option B) (mk : B -> clause) (a : list clause)
    (rows : list UploadedFile) :
  select_where (if_not_None o (fun x => a ++ [mk x]) a) rows =
  List.filter (fun f => if_not_None o (fun x => eval_clause (mk x) f) true)
              (select_where a rows).
Proof.
  destruct o as [x|]; unfold if_not_None;
    [apply select_where_snoc | now rewrite filter_true].
Qed.

Lemma select_where_clauses_of (q : files_query) (start : option date)
    (rows : list UploadedFile) :
  select_where (clauses_of q start) rows = List.filter (matches q start) rows.
Proof.
  unfold clauses_of. cbv zeta.
  rewrite !select_where_truthy, !select_where_not_None, !select_where_truthy.
  unfold select_where at 1. cbn [forallb]. rewrite filter_true.
  rewrite !filter_filter_and. apply List.filter_ext. intros f.
  unfold matches. cbn [eval_clause]. now rewrite !andb_assoc.
Qed.

Lemma build_query_without_end (q : files_query) (start : option date) (w : world) :
  opt_truthy (q_receipt_date_end q) = false ->
  start_bound q = Some start ->
  build_query q w = (inr (clauses_of q start), w).
Proof.
  unfold start_bound, build_query, clauses_of. intros Hend Hstart.
  destruct (q_receipt_date_end q) as [[|c s]|]; [|discriminate Hend|];
    destruct (q_receipt_date_start q) as [[|c0 s0]|]; cbn in Hstart.
  all: try (injection Hstart as <-; reflexivity).
  all: cbn; unfold parse_date; destruct (parse (c0 :: s0)) as [t|];
    [|discriminate Hstart]; injection Hstart as <-; reflexivity.
Qed.

(** Without an end date, the list answers 200 with exactly the rows of the
    table, in table order, that satisfy every predicate the query supplies:
    owner and similarity status by equality, file name by [ILIKE], receipt
    date on or after the start date, amount within the bounds; a row whose
    compared column is null is left out. *)
Theorem list_is_conjunction
    (ev : env) (q : files_query) (start : option date) (w : world) :
  execute_fails ev = false ->
  opt_truthy (q_receipt_date_end q) = false ->
  start_bound q = Some start ->
  get_files ev q w =
    (inr (Resp 200 (FilesData (map file_json (List.filter (matches q start) (db w))))), w).
Proof.
  intros He Hend Hstart. unfold get_files, query_files, try_except, bind.
  rewrite (build_query_without_end q start w Hend Hstart).
  unfold db_execute. rewrite He. unfold ret.
  now rewrite select_where_clauses_of.
Qed.

Lemma build_query_reads_only (q : files_query) (w w' : world) (r : exn + list clause) :
  build_query q w = (r, w') -> w' = w.
Proof.
  unfold build_query, if_truthy, parse_date, date_add_Timedelta_1. run_monad.
  destruct (q_receipt_date_start q) as [[|c0 s0]|];
    destruct (q_receipt_date_end q) as [[|c s]|]; cbn;
    try (destruct (parse (c0 :: s0)); cbn);
    try (destruct (parse (c :: s)) as [t|]; cbn);
    try (destruct (date_add_one_day (dt_date t)); cbn);
    intros H; now injection H.
Qed.

(** The list never changes the table, the disk or the key counter; when it
    answers, it leaves the whole world as it was, log included, and what it
    returns are rows of the table in table order. *)
Theorem get_files_reads_only
    (ev : env) (q : files_query) (w w' : world) (r : exn + response) :
  get_files ev q w = (r, w') ->
  db w' = db w /\ disk w' = disk w /\ next_id w' = next_id w /\
  (forall resp, r = inr resp ->
     w' = w /\
     exists files, sublist files (db w) /\
                   resp = Resp 200 (FilesData (map file_json files))).
Proof.
  unfold get_files, query_files. run_monad.
  destruct (build_query q w) as [[e|query] w0] eqn:Hb;
    apply build_query_reads_only in Hb as ->; cbn.
  { intros H; injection H as <- <-. cbn. do 3 (split; [reflexivity|]).
    intros resp Hr. discriminate Hr. }
  destruct (execute_fails ev); cbn; intros H; injection H as <- <-; cbn.
  { do 3 (split; [reflexivity|]). intros resp Hr. discriminate Hr. }
  do 3 (split; [reflexivity|]). intros resp Hr. injection Hr as <-.
  split; [reflexivity|].
  eexists. split; [|reflexivity]. unfold select_where. apply filter_sublist.
Qed.

(** *** CSV export *)

(** An export that answers leaves the world as it was.  Its body is empty
    (204) for an empty table; otherwise it has one line more than the table
    has rows, every line, header included, has twelve fields, and the file
    name carries the export time. *)
Theorem export_is_rectangular
    (ev : env) (w w' : world) (resp : response) :
  export_to_csv ev w = (inr resp, w') ->
  w' = w /\
  ((db w = [] /\ resp = Resp 204 EmptyBody) \/
   exists lines,
     resp = Resp 200 (CsvBody lines
              (py "uploaded_files_export_" ++ strftime_underscore (now ev) ++ py ".csv")) /\
     length lines = S (length (db w)) /\
     Forall (fun l => length l = 12%nat) lines).
Proof.
  unfold export_to_csv. run_monad.
  destruct (execute_fails ev); cbn; [discriminate|].
  destruct (db w) as [|f rows]; cbn; intros H; injection H as <- <-.
  { split; [reflexivity|]. now left. }
  split; [reflexivity|]. right. eexists. split; [reflexivity|].
  unfold to_csv, DataFrame_of. cbn [columns values].
  change (csv_record f :: map csv_record rows) with (map csv_record (f :: rows)).
  split; [simpl length; now rewrite !length_map|].
  constructor; [reflexivity|].
  apply List.Forall_forall. intros l Hl.
  apply in_map_iff in Hl as (x & <- & Hx).
  apply in_map_iff in Hx as (g & <- & _). reflexivity.
Qed.

(** *** Record details and download *)

(** The details of a record are the object the unfiltered list shows for
    it. *)
Theorem details_agree_with_list
    (ev : env) (file_id : Z) (w : world) (file : UploadedFile) :
  execute_fails ev = false ->
  find_by_id file_id (db w) = Some file ->
  get_file_details ev file_id w = (inr (file_json file), []) /\
  exists rows,
    get_files ev no_filter w = (inr (Resp 200 (FilesData rows)), w) /\
    In (file_json file) rows.
Proof.
  intros He Hf. split.
  - unfold get_file_details, db_execute. rewrite He. cbn [fst].
    unfold find_by_id in Hf. now rewrite Hf.
  - unfold get_files, query_files. run_monad. rewrite He. cbn.
    eexists. split; [reflexivity|]. apply in_map.
    unfold select_where. apply List.filter_In. split; [|reflexivity].
    unfold find_by_id in Hf. now apply first_filter_Some in Hf.
Qed.


(** A row whose blob is missing can still be read, and cannot be
    downloaded. *)
Theorem row_without_blob
    (ev : env) (file_id : Z) (w : world) (file : UploadedFile) :
  execute_fails ev = false ->
  find_by_id file_id (db w) = Some file ->
  disk w !! os_path_join BACKUP_FOLDER (filename file) = None ->
  get_file_details ev file_id w = (inr (file_details file), []) /\
  download_file ev file_id w =
    (inl (HTTPException 500
            (Fmt "Failed to download file: "
               (HTTPException 404 (Lit "File not found on disk.")))),
     [(ERROR, MsgDownloadFailed file_id
                (HTTPException 404 (Lit "File not found on disk.")))]).
Proof.
  intros He Hf Hd. unfold get_file_details, download_file, db_execute.
  rewrite He. cbn [fst]. unfold find_by_id in Hf. rewrite Hf. cbv zeta.
  rewrite Hd. rewrite bool_decide_eq_false_2 by (intros [? ?]; discriminate).
  split; reflexivity.
Qed.

(** *** Error statuses *)

Lemma try_except_is_500 {A} (body : M A) (handler : exn -> M A) (w : world) :
  (forall e w0, exists d w1, handler e w0 = (inl (HTTPException 500 d), w1)) ->
  is_500 (fst (try_except body is_Exception handler w)).
Proof.
  intros H. unfold try_except. destruct (body w) as [[e|a] w0]; cbn; [|exact I].
  destruct (H e w0) as (d & w1 & ->). exact I.
Qed.

Lemma report_failure_is_500 {A} (msg : exn -> access_msg) (prefix : string)
    (body : exn + A) :
  is_500 (fst (report_failure msg prefix body)).
Proof. destruct body; exact I. Qed.

(** Every error a handler raises reaches the caller with status 500: the
    400 and 404 raised inside the handlers are caught by the handlers' own
    [except Exception] and raised again as 500. *)
Theorem every_error_is_500 :
  (forall ev rq w, is_500 (fst (upload_file ev rq w))) /\
  (forall ev q w, is_500 (fst (get_files ev q w))) /\
  (forall ev fid form w, is_500 (fst (update_file ev fid form w))) /\
  (forall ev fid own w, is_500 (fst (delete_file ev fid own w))) /\
  (forall ev w, is_500 (fst (export_to_csv ev w))) /\
  (forall ev fid w, is_500 (fst (get_file_details ev fid w))) /\
  (forall ev fid w, is_500 (fst (download_file ev fid w))).
Proof.
  repeat split; intros.
  - unfold upload_file, bind at 1, logger at 1. apply try_except_is_500.
    intros e w0. run_monad. eauto.
  - apply try_except_is_500. intros e w0. run_monad. eauto.
  - apply try_except_is_500. intros e w0. run_monad. eauto.
  - apply try_except_is_500. intros e w0. run_monad. eauto.
  - apply try_except_is_500. intros e w0. run_monad. eauto.
  - apply report_failure_is_500.
  - apply report_failure_is_500.
Qed.

End App.

(** ** The handlers on sample requests *)

(** Python keeps [U+00E9]: it is alphanumeric. *)
Example sanitize_report :
  sanitize latin1_isalnum latin1_isspace (py "r" ++ [233%N] ++ py "port #1!!.pdf") =
  py "r" ++ [233%N] ++ py "port1.pdf".
Proof. vm_compute. reflexivity. Qed.

(** A name made of a dot-led extension only has no extension for
    [splitext], and a name of refused characters before a good extension is
    stored under the extension alone. *)
Example splitext_samples :
  splitext (py ".pdf") = (py ".pdf", []) /\
  splitext (py "!!!.pdf") = (py "!!!", py ".pdf") /\
  sanitize latin1_isalnum latin1_isspace (py "!!!.pdf") = py ".pdf".
Proof. vm_compute. auto. Qed.

(** The list between 2024-01-01 and 2024-01-31 on a table that holds a
    record of 2024-01-31. *)
Example list_january_fails :
  fst (get_files iso_parse latin1_ilike_contains quiet_env
         (set_receipt_date_start (Some (py "2024-01-01"))
            (set_receipt_date_end (Some (py "2024-01-31")) no_filter))
         sample_world) =
  inl (HTTPException 500
         (Fmt "Failed to fetch files: "
            (AttributeError "'datetime.date' object has no attribute 'date'"))).
Proof. vm_compute. reflexivity. Qed.

Lemma C1_delete_other_owner :
  exists e w',
    delete_file sample_folder quiet_env 5 (py "alice") sample_world =
      (inl (HTTPException 500 (Fmt "Failed to delete file: " e)), w') /\
    db w' = db sample_world /\ disk w' = disk sample_world /\
    (execute_fails quiet_env = false ->
     e = HTTPException 404 (Lit "File not found or owner mismatch.")).
Proof.
  apply (proj2 (C1_delete_no_match_reported_as_500
                  sample_folder quiet_env 5 (py "alice") sample_world)).
  intros f [<-|[<-|[]]]; vm_compute; intros [? ?]; discriminate.
Defined.



Lemma C3_list_until_january_31 :
  exists e w',
    get_files iso_parse latin1_ilike_contains quiet_env
      (set_receipt_date_end (Some (py "2024-01-31")) no_filter) sample_world =
      (inl (HTTPException 500 (Fmt "Failed to fetch files: " e)), w') /\
    db w' = db sample_world /\
    (absent_or_parses iso_parse
       (q_receipt_date_start (set_receipt_date_end (Some (py "2024-01-31")) no_filter)) ->
     e = match date_add_one_day (dt_date (midnight (Date 2024 1 31))) with
         | Some _ => AttributeError "'datetime.date' object has no attribute 'date'"
         | None => OverflowError
         end).
Proof.
  apply (C3_end_date_filter_raises iso_parse latin1_ilike_contains quiet_env
           (set_receipt_date_end (Some (py "2024-01-31")) no_filter) sample_world
           (midnight (Date 2024 1 31))).
  exists (py "2024-01-31"). vm_compute. auto.
Defined.

Lemma C4_list_with_bad_dates :
  (exists w',
     get_files iso_parse latin1_ilike_contains quiet_env
       (set_receipt_date_start (Some (py "yesterday")) no_filter) sample_world =
       (inl (HTTPException 500
               (Fmt "Failed to fetch files: "
                  (HTTPException 400
                     (Lit "Invalid receipt_date_start format. Use YYYY-MM-DD.")))),
        w') /\ db w' = db sample_world) /\
  (exists w',
     get_files iso_parse latin1_ilike_contains quiet_env
       (set_receipt_date_end (Some (py "31/01/2024")) no_filter) sample_world =
       (inl (HTTPException 500
               (Fmt "Failed to fetch files: "
                  (HTTPException 400
                     (Lit "Invalid receipt_date_end format. Use YYYY-MM-DD.")))),
        w') /\ db w' = db sample_world).
Proof.
  split.
  - apply (proj1 (C4_unparseable_date_reported_as_500
                    iso_parse latin1_ilike_contains quiet_env
                    (set_receipt_date_start (Some (py "yesterday")) no_filter)
                    sample_world)).
    exists (py "yesterday"). vm_compute. auto.
  - apply (proj2 (C4_unparseable_date_reported_as_500
                    iso_parse latin1_ilike_contains quiet_env
                    (set_receipt_date_end (Some (py "31/01/2024")) no_filter)
                    sample_world)).
    + exact I.
    + exists (py "31/01/2024"). vm_compute. auto.
Defined.

Lemma C5_upload_notes_txt :
  exists w',
    upload_file latin1_isalnum latin1_isspace latin1_lower sample_folder quiet_env
      (sample_upload (py "notes.txt")) empty_world =
      (inl (HTTPException 500
              (Fmt "An error occurred during upload: "
                 (HTTPException 400
                    (Lit "Invalid file type. Only JPG, JPEG, PNG, PDF are allowed.")))),
       w') /\
    db w' = db empty_world /\ disk w' = disk empty_world /\
    log w' = log empty_world ++
      [(INFO, MsgReceivedUpload (Some (py "notes.txt")) (py "alice") None);
       (ERROR, MsgUploadError
                 (HTTPException 400
                    (Lit "Invalid file type. Only JPG, JPEG, PNG, PDF are allowed.")))].
Proof.
  apply (C5_invalid_extension_reported_as_500
           latin1_isalnum latin1_isspace latin1_lower sample_folder quiet_env
           (sample_upload (py "notes.txt")) empty_world (py "notes.txt")).
  vm_compute. auto.
Defined.

Lemma C6_update_record_5 :
  exists w',
    update_file iso_parse quiet_env 5 sample_form sample_world =
      (inr (Resp 200 (UpdateOk 5)), w') /\
    db w' = replace_row 5
              (updated_row
                 (sample_row 5 (py "a.pdf") (py "bob")
                    (Some (midnight (Date 2024 1 31))) (Some 1250))
                 sample_form None)
              (db sample_world) /\
    find_by_id 5 (db w') =
      Some (updated_row
              (sample_row 5 (py "a.pdf") (py "bob")
                 (Some (midnight (Date 2024 1 31))) (Some 1250))
              sample_form None) /\
    (opt_truthy (f_receipt_date sample_form) = false ->
     receipt_date
       (updated_row
          (sample_row 5 (py "a.pdf") (py "bob")
             (Some (midnight (Date 2024 1 31))) (Some 1250))
          sample_form None) = None).
Proof.
  apply (C6_update_replaces_wholesale iso_parse quiet_env 5 sample_form sample_world);
    vm_compute; reflexivity.
Defined.

Lemma C7_upload_with_failing_commit :
  let ev := Env (now quiet_env) false WriteOk false false true in
  let rq := sample_upload (py "scan.jpg") in
  let out := upload_file latin1_isalnum latin1_isspace latin1_lower sample_folder
               ev rq empty_world in
  fst out =
    inl (HTTPException 500
           (Fmt "An error occurred during upload: "
              (HTTPException 500
                 (Fmt "Failed to save file info to database: " SQLAlchemyError)))) /\
  db (snd out) = db empty_world /\
  disk (snd out) !!
    os_path_join sample_folder
      (spec_stored_filename latin1_isalnum latin1_isspace latin1_lower (now ev)
         (py "scan.jpg")) = Some (up_bytes rq).
Proof.
  intros ev rq out.
  refine (proj2 (proj2 (C7_row_only_after_blob
            latin1_isalnum latin1_isspace latin1_lower sample_folder ev rq
            empty_world (snd out) (fst out) (py "scan.jpg") _ _)) _ _ _).
  - vm_compute. auto.
  - vm_compute. reflexivity.
  - reflexivity.
  - reflexivity.
  - reflexivity.
Defined.

Lemma C8_delete_record_6 :
  exists w',
    delete_file sample_folder quiet_env 6 (py "carol") sample_world =
      (inr (Resp 200 DeleteOk), w') /\
    db w' = remove_row 6 (db sample_world) /\
    S (length (db w')) = length (db sample_world) /\
    (NoDup (map id (db sample_world)) -> forall f, In f (db w') -> id f <> 6) /\
    disk w' = disk sample_world /\
    log w' = log sample_world ++
      [(WARNING, MsgDiskMissing (py "b.png") 6 (py "/srv/backup/b.png"));
       (INFO, MsgDbDeleted 6)].
Proof.
  apply (C8_delete_with_missing_blob sample_folder quiet_env 6 (py "carol")
           sample_world
           (sample_row 6 (py "b.png") (py "carol")
              (Some (midnight (Date 2024 2 1))) None));
    vm_compute; reflexivity.
Defined.

Lemma C9_export_samples :
  export_to_csv quiet_env empty_world = (inr (Resp 204 EmptyBody), empty_world) /\
  exists header lines name,
    export_to_csv quiet_env sample_world =
      (inr (Resp 200 (CsvBody (header :: lines) name)), sample_world) /\
    header = map (fun h => CStr (py h)) CSV_HEADERS /\
    length lines = length (db sample_world) /\
    lines = map (fun f => map snd (file_json f)) (db sample_world).
Proof.
  split.
  - apply (proj1 (C9_export_to_csv quiet_env empty_world eq_refl)). reflexivity.
  - apply (proj2 (C9_export_to_csv quiet_env sample_world eq_refl)). discriminate.
Defined.

(** ** Further properties on sample requests *)

Lemma sample_world_well_keyed : well_keyed sample_world.
Proof.
  split.
  - cbn. apply NoDup_cons. split; [|apply NoDup_singleton].
    intros H. apply list_elem_of_In in H. destruct H as [H|[]]. discriminate H.
  - intros f [<-|[<-|[]]]; reflexivity.
Defined.

Lemma quiet_env_no_faults : no_faults quiet_env.
Proof. repeat split. Defined.

Lemma upload_scan_stored_under_its_name :
  let out := upload_file latin1_isalnum latin1_isspace latin1_lower sample_folder
               quiet_env (sample_upload (py "my scan.JPG")) sample_world in
  exists name sep,
    up_filename (sample_upload (py "my scan.JPG")) = Some name /\
    sanitize latin1_isalnum latin1_isspace name <> [] /\
    ~ In c_slash (sanitize latin1_isalnum latin1_isspace name) /\
    (sep = [] \/ sep = [c_slash]) /\
    db (snd out) =
      db sample_world ++
      [new_row (next_id sample_world) (sanitize latin1_isalnum latin1_isspace name)
         (py "alice") None (Some (py "10.0.0.7")) (now quiet_env)] /\
    disk (snd out) =
      <[sample_folder ++ sep ++ sanitize latin1_isalnum latin1_isspace name := [1; 2; 3]%N]>
        (disk sample_world).
Proof.
  intros out.
  apply (upload_stores_under_sanitized_name
           latin1_isalnum latin1_isspace latin1_lower sample_folder quiet_env
           (sample_upload (py "my scan.JPG")) sample_world (snd out)
           (Resp 200 (UploadOk 7))); vm_compute; reflexivity.
Defined.

Lemma upload_scan_then_details :
  let out := upload_file latin1_isalnum latin1_isspace latin1_lower sample_folder
               quiet_env (sample_upload (py "my scan.JPG")) sample_world in
  exists name,
    up_filename (sample_upload (py "my scan.JPG")) = Some name /\
    fst (get_file_details quiet_env 7 (snd out)) =
      inr [("id", CInt 7);
           ("filename", CStr (spec_stored_filename latin1_isalnum latin1_isspace
                                latin1_lower (now quiet_env) name));
           ("owner", CStr (py "alice"));
           ("work_detail", CNone);
           ("uploaded_at", CIso (now quiet_env));
           ("client_ip", CStr (py "10.0.0.7"));
           ("ocr_text", CNone);
           ("receipt_date", CNone);
           ("total_amount", CNone);
           ("similarity_status", CStr (py "No"));
           ("similar_to_file_id", CNone);
           ("similarity_score", CNone)]%string.
Proof.
  intros out.
  destruct (upload_then_details
              latin1_isalnum latin1_isspace latin1_lower sample_folder quiet_env
              quiet_env (sample_upload (py "my scan.JPG")) sample_world (snd out) 7
              sample_world_well_keyed eq_refl eq_refl) as (name & Hn & Hd).
  exists name. split; [exact Hn|]. now rewrite Hd.
Defined.

Lemma upload_scan_then_download :
  let out := upload_file latin1_isalnum latin1_isspace latin1_lower sample_folder
               quiet_env (sample_upload (py "my scan.JPG")) sample_world in
  exists fr,
    download_file sample_folder sample_guess_type ascii_quote quiet_env 7 (snd out) =
      (inr fr, []) /\
    disk (snd out) !! fr_path fr = Some [1; 2; 3]%N /\
    fr_path fr = os_path_join sample_folder (fr_filename fr) /\
    fr_content_disposition fr = py "attachment; filename=" ++ ascii_quote (fr_filename fr).
Proof.
  intros out.
  apply (upload_then_download
           latin1_isalnum latin1_isspace latin1_lower sample_folder
           sample_guess_type ascii_quote quiet_env quiet_env
           (sample_upload (py "my scan.JPG")) sample_world (snd out) 7
           sample_world_well_keyed eq_refl eq_refl).
Defined.

Lemma keys_unique_after_sample_requests :
  well_keyed (snd (upload_file latin1_isalnum latin1_isspace latin1_lower sample_folder
                     quiet_env (sample_upload (py "my scan.JPG")) sample_world)) /\
  well_keyed (snd (update_file iso_parse quiet_env 5 sample_form sample_world)) /\
  well_keyed (snd (delete_file sample_folder quiet_env 5 (py "bob") sample_world)).
Proof.
  destruct (handlers_keep_keys_unique
              latin1_isalnum latin1_isspace latin1_lower iso_parse sample_folder
              sample_world sample_world_well_keyed) as (Hup & Hupd & Hdel).
  split; [|split].
  - eapply Hup. apply surjective_pairing.
  - eapply Hupd. apply surjective_pairing.
  - eapply Hdel. apply surjective_pairing.
Defined.

Lemma update_missing_record_changes_nothing :
  let out := update_file iso_parse quiet_env 99 sample_form sample_world in
  disk (snd out) = disk sample_world /\ next_id (snd out) = next_id sample_world /\
  (exists e, fst out = inl (HTTPException 500 (Fmt "Failed to update file: " e))) /\
  db (snd out) = db sample_world.
Proof.
  intros out.
  destruct (update_stopped_by_commit_changes_nothing
              iso_parse quiet_env 99 sample_form sample_world (snd out) (fst out)
              (surjective_pairing out)) as (Hd & Hn & H).
  split; [exact Hd|]. split; [exact Hn|].
  apply H. right. left. reflexivity.
Defined.

Lemma update_record_5_leaves_record_6 :
  let out := update_file iso_parse quiet_env 5 sample_form sample_world in
  find_by_id 6 (db (snd out)) = find_by_id 6 (db sample_world) /\
  length (db (snd out)) = length (db sample_world).
Proof.
  intros out.
  apply (update_leaves_other_rows iso_parse quiet_env 5 6 sample_form sample_world
           (snd out) (fst out)); [discriminate | apply surjective_pairing].
Defined.

Lemma update_record_5_then_details :
  let out := update_file iso_parse quiet_env 5 sample_form sample_world in
  exists file rd,
    find_by_id 5 (db sample_world) = Some file /\
    new_receipt_date iso_parse (f_receipt_date sample_form) = Some rd /\
    get_file_details quiet_env 5 (snd out) =
      (inr [("id", CInt 5);
            ("filename", CStr (filename file));
            ("owner", CStr (f_owner sample_form));
            ("work_detail", opt_cell CStr (f_work_detail sample_form));
            ("uploaded_at", CIso (uploaded_at file));
            ("client_ip", opt_cell CStr (client_ip file));
            ("ocr_text", opt_cell CStr (f_ocr_text sample_form));
            ("receipt_date", opt_cell CIso rd);
            ("total_amount", opt_cell CFloat (f_total_amount sample_form));
            ("similarity_status", opt_cell CStr (f_similarity_status sample_form));
            ("similar_to_file_id", opt_cell CInt (f_similar_to_file_id sample_form));
            ("similarity_score", opt_cell CFloat (f_similarity_score sample_form))]%string,
       []).
Proof.
  intros out.
  apply (update_then_details iso_parse quiet_env quiet_env 5 sample_form sample_world
           (snd out) (Resp 200 (UpdateOk 5)) eq_refl).
  vm_compute. reflexivity.
Defined.

Lemma delete_record_5_with_its_blob :
  exists w',
    delete_file sample_folder quiet_env 5 (py "bob") sample_world =
      (inr (Resp 200 DeleteOk), w') /\
    db w' = remove_row 5 (db sample_world) /\
    disk w' !! py "/srv/backup/a.pdf" = None /\
    (forall path, path <> py "/srv/backup/a.pdf" ->
                  disk w' !! path = disk sample_world !! path) /\
    log w' = log sample_world ++ [(INFO, MsgDiskDeleted (py "a.pdf"));
                                  (INFO, MsgDbDeleted 5)].
Proof.
  apply (delete_removes_blob_and_row sample_folder quiet_env 5 (py "bob") sample_world
           (sample_row 5 (py "a.pdf") (py "bob")
              (Some (midnight (Date 2024 1 31))) (Some 1250))
           quiet_env_no_faults eq_refl).
  vm_compute. eauto.
Defined.

Lemma delete_record_5_with_faults :
  (exists w',
     delete_file sample_folder (Env (now quiet_env) false WriteOk true false false)
       5 (py "bob") sample_world =
       (inl (HTTPException 500 (Fmt "Failed to delete file: " OSError)), w') /\
     db w' = db sample_world /\ disk w' = disk sample_world) /\
  (exists w',
     delete_file sample_folder (Env (now quiet_env) false WriteOk false false true)
       5 (py "bob") sample_world =
       (inl (HTTPException 500 (Fmt "Failed to delete file: " SQLAlchemyError)), w') /\
     db w' = db sample_world /\
     In (sample_row 5 (py "a.pdf") (py "bob")
           (Some (midnight (Date 2024 1 31))) (Some 1250)) (db w') /\
     disk w' !! py "/srv/backup/a.pdf" = None).
Proof.
  split.
  - apply (proj1 (delete_failures_with_blob sample_folder
                    (Env (now quiet_env) false WriteOk true false false)
                    5 (py "bob") sample_world
                    (sample_row 5 (py "a.pdf") (py "bob")
                       (Some (midnight (Date 2024 1 31))) (Some 1250))
                    eq_refl eq_refl ltac:(vm_compute; eauto))).
    reflexivity.
  - apply (proj2 (delete_failures_with_blob sample_folder
                    (Env (now quiet_env) false WriteOk false false true)
                    5 (py "bob") sample_world
                    (sample_row 5 (py "a.pdf") (py "bob")
                       (Some (midnight (Date 2024 1 31))) (Some 1250))
                    eq_refl eq_refl ltac:(vm_compute; eauto))); reflexivity.
Defined.

Lemma delete_record_5_keeps_record_6 :
  let out := delete_file sample_folder quiet_env 5 (py "bob") sample_world in
  In (sample_row 6 (py "b.png") (py "carol") (Some (midnight (Date 2024 2 1))) None)
     (db (snd out)) <->
  In (sample_row 6 (py "b.png") (py "carol") (Some (midnight (Date 2024 2 1))) None)
     (db sample_world).
Proof.
  intros out.
  apply (delete_leaves_other_rows sample_folder quiet_env 5 (py "bob") sample_world
           (snd out) (fst out)); [discriminate | apply surjective_pairing].
Defined.

Lemma delete_record_5_twice :
  let out := delete_file sample_folder quiet_env 5 (py "bob") sample_world in
  exists w'',
    delete_file sample_folder quiet_env 5 (py "bob") (snd out) =
      (inl (HTTPException 500
              (Fmt "Failed to delete file: "
                 (HTTPException 404 (Lit "File not found or owner mismatch.")))),
       w'') /\
    db w'' = db (snd out).
Proof.
  intros out.
  apply (delete_twice sample_folder quiet_env quiet_env 5 (py "bob") sample_world
           (snd out) (Resp 200 DeleteOk) (proj1 sample_world_well_keyed) eq_refl).
  vm_compute. reflexivity.
Defined.

Lemma upload_scan_then_delete :
  let out := upload_file latin1_isalnum latin1_isspace latin1_lower sample_folder
               quiet_env (sample_upload (py "my scan.JPG")) sample_world in
  exists w'',
    delete_file sample_folder quiet_env 7 (py "alice") (snd out) =
      (inr (Resp 200 DeleteOk), w'') /\
    db w'' = db sample_world /\
    (forall path, disk w'' !! path = None \/ disk w'' !! path = disk sample_world !! path).
Proof.
  intros out.
  apply (upload_then_delete
           latin1_isalnum latin1_isspace latin1_lower sample_folder quiet_env quiet_env
           (sample_upload (py "my scan.JPG")) sample_world (snd out) 7
           sample_world_well_keyed quiet_env_no_faults eq_refl).
Defined.

Lemma list_bob_from_zero :
  get_files iso_parse latin1_ilike_contains quiet_env
    (set_owner (Some (py "bob")) (set_total_amount_min (Some 0%Q) no_filter))
    sample_world =
  (inr (Resp 200 (FilesData (map file_json
          (List.filter
             (matches latin1_ilike_contains
                (set_owner (Some (py "bob")) (set_total_amount_min (Some 0%Q) no_filter))
                None)
             (db sample_world))))),
   sample_world).
Proof.
  apply (list_is_conjunction iso_parse latin1_ilike_contains quiet_env
           (set_owner (Some (py "bob")) (set_total_amount_min (Some 0%Q) no_filter))
           None sample_world); reflexivity.
Defined.

Lemma list_carol_reads_only :
  let out := get_files iso_parse latin1_ilike_contains quiet_env
               (set_owner (Some (py "carol")) no_filter) sample_world in
  db (snd out) = db sample_world /\ disk (snd out) = disk sample_world /\
  next_id (snd out) = next_id sample_world /\
  (forall resp, fst out = inr resp ->
     snd out = sample_world /\
     exists files, sublist files (db sample_world) /\
                   resp = Resp 200 (FilesData (map file_json files))).
Proof.
  intros out.
  apply (get_files_reads_only iso_parse latin1_ilike_contains quiet_env
           (set_owner (Some (py "carol")) no_filter) sample_world (snd out) (fst out)).
  apply surjective_pairing.
Defined.

Lemma export_sample_world_is_rectangular :
  let out := export_to_csv quiet_env sample_world in
  snd out = sample_world /\
  exists lines name,
    fst out = inr (Resp 200 (CsvBody lines name)) /\
    length lines = 3%nat /\
    Forall (fun l => length l = 12%nat) lines.
Proof.
  intros out.
  destruct (export_is_rectangular quiet_env sample_world (snd out)
              (Resp 200 (CsvBody (to_csv (DataFrame_of (map csv_record (db sample_world))))
                 (py "uploaded_files_export_" ++ strftime_underscore (now quiet_env)
                  ++ py ".csv"))) eq_refl)
    as (Hw & [(Hdb & _)|(lines & Hr & Hlen & Hall)]); [discriminate Hdb|].
  split; [exact Hw|].
  exists lines, (py "uploaded_files_export_" ++ strftime_underscore (now quiet_env)
                 ++ py ".csv").
  split; [|split; [exact Hlen | exact Hall]].
  rewrite <- Hr. reflexivity.
Defined.

Lemma details_of_record_6_in_list :
  get_file_details quiet_env 6 sample_world =
    (inr (file_json (sample_row 6 (py "b.png") (py "carol")
                       (Some (midnight (Date 2024 2 1))) None)), []) /\
  exists rows,
    get_files iso_parse latin1_ilike_contains quiet_env no_filter sample_world =
      (inr (Resp 200 (FilesData rows)), sample_world) /\
    In (file_json (sample_row 6 (py "b.png") (py "carol")
                     (Some (midnight (Date 2024 2 1))) None)) rows.
Proof.
  apply (details_agree_with_list iso_parse latin1_ilike_contains quiet_env 6
           sample_world); reflexivity.
Defined.


Lemma record_6_without_blob :
  get_file_details quiet_env 6 sample_world =
    (inr (file_details (sample_row 6 (py "b.png") (py "carol")
                          (Some (midnight (Date 2024 2 1))) None)), []) /\
  download_file sample_folder sample_guess_type ascii_quote quiet_env 6 sample_world =
    (inl (HTTPException 500
            (Fmt "Failed to download file: "
               (HTTPException 404 (Lit "File not found on disk.")))),
     [(ERROR, MsgDownloadFailed 6 (HTTPException 404 (Lit "File not found on disk.")))]).
Proof.
  apply (row_without_blob sample_folder sample_guess_type ascii_quote quiet_env 6
           sample_world); vm_compute; reflexivity.
Defined.

(** The download of record 5 announces a PDF under its stored name. *)
Example download_record_5 :
  fst (download_file sample_folder sample_guess_type ascii_quote quiet_env 5 sample_world) =
  inr {| fr_path := py "/srv/backup/a.pdf";
         fr_filename := py "a.pdf";
         fr_media_type := py "application/pdf";
         fr_content_disposition := py "attachment; filename=a.pdf" |}.
Proof. vm_compute. reflexivity. Qed.
